(** * smart-config: the network-configuration resolution policy

    A shallow embedding of [SmartConfigService]
    (src/src/smart-config.service.ts) and the properties of its resolution
    policy: the environment / network / client-environment decision table,
    the local-or-remote choice of [getNodes], [getUtilities] and [getFees],
    the consensus threshold and the configuration-store accessors.

    The embedding follows the TypeScript typing of the service: a value has
    the type the source declares for it ([getOrThrow<number>],
    [Promise<Array<IEntity>>], ...).  Exceptions, promise rejections and the
    HTTP requests issued are explicit. *)

From Stdlib Require Import String Ascii List Bool ZArith QArith Qround.
From Stdlib Require Import PrimFloat SpecFloat FloatOps FloatAxioms Uint63 Lia.
Import ListNotations.
Local Open Scope string_scope.

Set Implicit Arguments.

(** ** The JavaScript fragment the service relies on *)

(** An error object: its constructor name and its message. *)
Record JsError : Type := mkError { name : string; message : string }.

(** [new Error(msg)] *)
Definition Error (msg : string) : JsError := mkError "Error" msg.

(** The [TypeError] the runtime and the libraries raise. *)
Definition TypeError (msg : string) : JsError := mkError "TypeError" msg.

(** Outcome of evaluating a synchronous expression. *)
Inductive completion (A : Type) : Type :=
| Normal (a : A)
| Throw (e : JsError).
Arguments Normal {A} a.
Arguments Throw {A} e.

(** A settled promise. *)
Inductive Promise (A : Type) : Type :=
| Resolved (a : A)
| Rejected (e : JsError).
Arguments Resolved {A} a.
Arguments Rejected {A} e.

(** What [httpService.get(url).toPromise()] settles to: a response carrying
    the decoded body in [data], or the collaborator's failure. *)
Inductive AxiosOutcome (T : Type) : Type :=
| Response (data : T)
| Failure (e : JsError).
Arguments Response {T} data.
Arguments Failure {T} e.

(** [lodash.isUndefined] on an optional value ([None] is [undefined]). *)
Definition isUndefined {A : Type} (v : option A) : bool :=
  match v with
  | None => true
  | Some _ => false
  end.

(** [v !== s] for an optional string [v] and a string literal [s]. *)
Definition strict_neq (v : option string) (s : string) : bool :=
  match v with
  | None => true
  | Some u => negb (String.eqb u s)
  end.

(** The template literal [`${v}${suffix}`]: an undefined [v] prints as
    the word undefined. *)
Definition template (v : option string) (suffix : string) : string :=
  match v with
  | None => "undefined" ++ suffix
  | Some u => u ++ suffix
  end.

(** JavaScript numbers are binary64: [*] and [/] are the primitive
    operations of [float].  An array length is a number below 2^32, so
    its conversion to binary64 is exact. *)

(** The numbers [Math.ceil] returns: an integer, the negative zero, NaN
    or an infinity. *)
Inductive number : Type :=
| Integer (z : Z)
| NegativeZero
| NaN
| Infinity (negative : bool).

(** [Math.ceil]: the least integer not below a finite number, with the
    negative zero for a number in (-1, 0]; NaN and the infinities are
    returned as they are. *)
Definition Math_ceil (x : float) : number :=
  match Prim2SF x with
  | S754_zero negative => if negative then NegativeZero else Integer 0
  | S754_finite negative m e =>
      let below :=
        if (0 <=? e)%Z then (Z.pos m * 2 ^ e)%Z else (Z.pos m / 2 ^ (- e))%Z in
      let integral :=
        if (0 <=? e)%Z then true else (Z.pos m mod 2 ^ (- e) =? 0)%Z in
      if negative
      then if (below =? 0)%Z then NegativeZero else Integer (- below)
      else Integer (if integral then below else below + 1)
  | S754_infinity negative => Infinity negative
  | S754_nan => NaN
  end.



(** The binary64 value of [(nodes.length * thresholdValue) / 100] for [n]
    nodes: the product is rounded, then the quotient. *)
Definition quotient_double (n : nat) (thresholdValue : float) : float :=
  PrimFloat.div
    (PrimFloat.mul (PrimFloat.of_uint63 (Uint63.of_Z (Z.of_nat n)))
       thresholdValue)
    100%float.

(** [Math.ceil] on a binary64 number; [None] stands for NaN and the
    infinities, which [Math.ceil] returns as they are. *)
Definition Math_ceil_double (x : float) : option Z :=
  match Prim2SF x with
  | S754_zero _ => Some 0%Z
  | S754_finite negative m e =>
      let below :=
        if (0 <=? e)%Z then (Z.pos m * 2 ^ e)%Z else (Z.pos m / 2 ^ (- e))%Z in
      let integral :=
        if (0 <=? e)%Z then true else (Z.pos m mod 2 ^ (- e) =? 0)%Z in
      Some (if negative then (- below)%Z
            else if integral then below else (below + 1)%Z)
  | S754_infinity _ => None
  | S754_nan => None
  end.

(** The rational a finite binary64 number denotes. *)
Definition double_value (x : float) : option Q :=
  match Prim2SF x with
  | S754_zero _ => Some 0%Q
  | S754_finite negative m e =>
      let magnitude :=
        if (0 <=? e)%Z then inject_Z (Z.pos m * 2 ^ e)
        else (Z.pos m # Z.to_pos (2 ^ (- e)))%Q in
      Some (if negative then (- magnitude)%Q else magnitude)
  | S754_infinity _ => None
  | S754_nan => None
  end.

(** Line 227, [Math.ceil((nodes.length * thresholdValue) / 100)], on
    binary64 for [n] nodes. *)
Definition threshold_double (n : nat) (thresholdValue : float) : option Z :=
  Math_ceil_double
    (PrimFloat.div
       (PrimFloat.mul (PrimFloat.of_uint63 (Uint63.of_Z (Z.of_nat n)))
          thresholdValue)
       100%float).

(** The mathematical reference: the exact ceiling of [n * p / 100] on
    rationals, with no rounding. *)
Definition threshold_exact (n : nat) (thresholdValue : Q) : Z :=
  Qceiling ((inject_Z (Z.of_nat n) * thresholdValue) / 100)%Q.

(** Both readings give the same threshold for [n] nodes at the integer
    percentage [p]. *)
Definition readings_agree (n p : nat) : bool :=
  match threshold_double n (PrimFloat.of_uint63 (Uint63.of_Z (Z.of_nat p))) with
  | Some t => Z.eqb t (threshold_exact n (inject_Z (Z.of_nat p)))
  | None => false
  end.

(** The double-quote character, for messages that quote a key. *)
Definition dquote : string := String (ascii_of_nat 34) EmptyString.

Section SmartConfig.

(** Opaque descriptors of @hsuite/smart-network-types and
    @hsuite/hashgraph-types; the service never inspects them. *)
Variables IEntity IUtility IFees IIssuer IOperator : Type.

(** [LedgerId] of @hashgraph/sdk and its parser, an external function. *)
Variable LedgerId : Type.
Variable LedgerId_fromString : string -> completion LedgerId.

(** *** Options *)

(** The triple [getNetworkConfig] returns (lines 89-93). *)
Record INetworkConfig : Type := {
  nodes : list IEntity;
  utilities : list IUtility;
  fees : IFees
}.

(** Modelled from the spec: the declaration of [customNetwork] lives in
    @hsuite/smart-network-types, which is not part of the sources; the
    table is keyed by testnet, local and mainnet and an entry may be
    missing. *)
Record ICustomNetwork : Type := {
  testnet : option INetworkConfig;
  local : option INetworkConfig;
  mainnet : option INetworkConfig
}.

(** Modelled from the spec: [ISmartNetwork.INetwork.IConfig.IOptions] is
    declared in @hsuite/smart-network-types; the fields are those the
    service reads.  [customNetwork] and [smartRegistryUrl] are optional
    ([None] is [undefined]). *)
Record IOptions : Type := {
  environment : string;
  network : string;
  client_environment : string;
  customNetwork : option ICustomNetwork;
  smartRegistryUrl : option string
}.

(** Modelled from the spec: [IHashgraph.IMirrorNode] is declared in
    @hsuite/hashgraph-types; its three fields are nullable ([None] is
    [null]). *)
Record IMirrorNode : Type := {
  url : option string;
  apiKey : option string;
  grpc : option string
}.

(** *** Collaborators *)

(** The keys the service reads from the configuration store, indexed by
    the type at which it reads them. *)
Inductive ConfigKey : Type -> Type :=
| key_smartConfig_environment : ConfigKey string
| key_smartConfig_client_environment : ConfigKey string
| key_issuer : ConfigKey IIssuer
| key_client_operator : ConfigKey IOperator
| key_mirrorNode : ConfigKey IMirrorNode
| key_clusterConfig_threshold : ConfigKey float.

(** The dotted path of a key. *)
Definition propertyPath {T : Type} (k : ConfigKey T) : string :=
  match k with
  | key_smartConfig_environment => "smartConfig.environment"
  | key_smartConfig_client_environment => "smartConfig.client_environment"
  | key_issuer => "issuer"
  | key_client_operator => "client.operator"
  | key_mirrorNode => "mirrorNode"
  | key_clusterConfig_threshold => "clusterConfig.threshold"
  end.

(** The configuration store: a key holds a value or is absent. *)
Definition ConfigService : Type := forall T : Type, ConfigKey T -> option T.

(** [configService.getOrThrow<T>(key)] of @nestjs/config: the value, or a
    [TypeError] when the key is absent. *)
Definition getOrThrow {T : Type} (cs : ConfigService) (k : ConfigKey T)
  : completion T :=
  match cs T k with
  | Some v => Normal v
  | None =>
      Throw (TypeError ("Configuration key " ++ dquote ++ propertyPath k
                          ++ dquote ++ " does not exist"))
  end.

(** The HTTP client, read at the three body types at which the service
    awaits [httpService.get(url).toPromise()]. *)
Record HttpService : Type := {
  get_entities : string -> AxiosOutcome (list IEntity);
  get_utilities : string -> AxiosOutcome (list IUtility);
  get_fees : string -> AxiosOutcome IFees
}.

(** The service instance (its three constructor arguments) together with
    the GET requests issued so far, oldest first. *)
Record World : Type := {
  smartConfigOptions : IOptions;
  configService : ConfigService;
  httpService : HttpService;
  requests : list string
}.

(** Issuing one GET: the URL is appended to the request log. *)
Definition issue_get (u : string) (w : World) : World :=
  {| smartConfigOptions := smartConfigOptions w;
     configService := configService w;
     httpService := httpService w;
     requests := requests w ++ [u] |}.

(** [await this.httpService.get(u).toPromise()] at body type [T]. *)
Definition httpService_get {T : Type}
    (view : HttpService -> string -> AxiosOutcome T) (u : string) (w : World)
  : AxiosOutcome T * World :=
  (view (httpService w) u, issue_get u w).

(** *** The service *)

(** [this.smartConfigOptions.customNetwork.<prop>]: reading a property of
    an undefined table throws. *)
Definition customNetwork_get (proj : ICustomNetwork -> option INetworkConfig)
    (prop : string) (o : IOptions) : completion (option INetworkConfig) :=
  match customNetwork o with
  | Some table => Normal (proj table)
  | None =>
      Throw (TypeError ("Cannot read properties of undefined (reading '"
                          ++ prop ++ "')"))
  end.

(** [getNetworkConfig] (lines 89-115).  [None] is the [null] the function
    starts from, or an entry that is missing from the table. *)
Definition getNetworkConfig (o : IOptions)
  : completion (option INetworkConfig) :=
  if String.eqb (environment o) "testnet" then
    if String.eqb (network o) "public" then
      Normal None
    else if String.eqb (network o) "private" then
      if String.eqb (client_environment o) "testnet"
      then customNetwork_get testnet "testnet" o
      else customNetwork_get local "local" o
    else
      Normal None
  else if String.eqb (environment o) "mainnet" then
    if String.eqb (network o) "private"
    then customNetwork_get mainnet "mainnet" o
    else Normal None
  else
    Normal None.

(** [getEnvironment] (lines 128-130). *)
Definition getEnvironment (w : World) : completion string * World :=
  (getOrThrow (configService w) key_smartConfig_environment, w).

(** [getClientEnvironment] (lines 144-148). *)
Definition getClientEnvironment (w : World) : completion LedgerId * World :=
  match getOrThrow (configService w) key_smartConfig_client_environment with
  | Normal s => (LedgerId_fromString s, w)
  | Throw e => (Throw e, w)
  end.

(** [getIssuer] (lines 162-165); a throw in an async function rejects. *)
Definition getIssuer (w : World) : Promise IIssuer * World :=
  match getOrThrow (configService w) key_issuer with
  | Normal issuer => (Resolved issuer, w)
  | Throw e => (Rejected e, w)
  end.

(** [getOperator] (lines 179-182). *)
Definition getOperator (w : World) : completion IOperator * World :=
  match getOrThrow (configService w) key_client_operator with
  | Normal operator => (Normal operator, w)
  | Throw e => (Throw e, w)
  end.

(** [getMirrorNode] (lines 196-207): the [catch] returns the all-null
    record. *)
Definition getMirrorNode (w : World) : completion IMirrorNode * World :=
  match getOrThrow (configService w) key_mirrorNode with
  | Normal mirrorNode => (Normal mirrorNode, w)
  | Throw error => (Normal {| url := None; apiKey := None; grpc := None |}, w)
  end.

(** [getNodes] (lines 247-266). *)
Definition getNodes (w : World) : Promise (list IEntity) * World :=
  match getNetworkConfig (smartConfigOptions w) with
  | Throw error => (Rejected error, w)
  | Normal (Some networkConfig) => (Resolved (nodes networkConfig), w)
  | Normal None =>
      if negb (isUndefined (smartRegistryUrl (smartConfigOptions w)))
         && strict_neq (smartRegistryUrl (smartConfigOptions w)) "local"
      then
        match httpService_get get_entities
                (template (smartRegistryUrl (smartConfigOptions w))
                          "/network/nodes") w with
        | (Response data, w') => (Resolved data, w')
        | (Failure error, w') => (Rejected error, w')
        end
      else (Rejected (Error "Base URL not set"), w)
  end.

(** [getUtilities] (lines 284-303). *)
Definition getUtilities (w : World) : Promise (list IUtility) * World :=
  match getNetworkConfig (smartConfigOptions w) with
  | Throw error => (Rejected error, w)
  | Normal (Some networkConfig) => (Resolved (utilities networkConfig), w)
  | Normal None =>
      if negb (isUndefined (smartRegistryUrl (smartConfigOptions w)))
         && strict_neq (smartRegistryUrl (smartConfigOptions w)) "local"
      then
        match httpService_get get_utilities
                (template (smartRegistryUrl (smartConfigOptions w))
                          "/network/utilities") w with
        | (Response data, w') => (Resolved data, w')
        | (Failure error, w') => (Rejected error, w')
        end
      else (Rejected (Error "Base URL not set"), w)
  end.

(** [getFees] (lines 326-345). *)
Definition getFees (w : World) : Promise IFees * World :=
  match getNetworkConfig (smartConfigOptions w) with
  | Throw error => (Rejected error, w)
  | Normal (Some networkConfig) => (Resolved (fees networkConfig), w)
  | Normal None =>
      if negb (isUndefined (smartRegistryUrl (smartConfigOptions w)))
         && strict_neq (smartRegistryUrl (smartConfigOptions w)) "local"
      then
        match httpService_get get_fees
                (template (smartRegistryUrl (smartConfigOptions w))
                          "/network/fees") w with
        | (Response data, w') => (Resolved data, w')
        | (Failure error, w') => (Rejected error, w')
        end
      else (Rejected (Error "Base URL not set"), w)
  end.

(** [getThreshold] (lines 224-229). *)
Definition getThreshold (w : World) : Promise number * World :=
  match getOrThrow (configService w) key_clusterConfig_threshold with
  | Throw e => (Rejected e, w)
  | Normal thresholdValue =>
      match getNodes w with
      | (Rejected e, w') => (Rejected e, w')
      | (Resolved nodes, w') =>
          (Resolved
             (Math_ceil
                (PrimFloat.div
                   (PrimFloat.mul
                      (PrimFloat.of_uint63
                         (Uint63.of_Z (Z.of_nat (length nodes))))
                      thresholdValue)
                   100%float)),
           w')
      end
  end.

End SmartConfig.

Arguments nodes {IEntity IUtility IFees} _.
Arguments utilities {IEntity IUtility IFees} _.
Arguments fees {IEntity IUtility IFees} _.
Arguments testnet {IEntity IUtility IFees} _.
Arguments local {IEntity IUtility IFees} _.
Arguments mainnet {IEntity IUtility IFees} _.
Arguments get_entities {IEntity IUtility IFees} _ _.
Arguments get_utilities {IEntity IUtility IFees} _ _.
Arguments get_fees {IEntity IUtility IFees} _ _.
Arguments key_smartConfig_environment {IIssuer IOperator}.
Arguments key_smartConfig_client_environment {IIssuer IOperator}.
Arguments key_issuer {IIssuer IOperator}.
Arguments key_client_operator {IIssuer IOperator}.
Arguments key_mirrorNode {IIssuer IOperator}.
Arguments key_clusterConfig_threshold {IIssuer IOperator}.
Arguments getNodes {IEntity IUtility IFees IIssuer IOperator} w.
Arguments getUtilities {IEntity IUtility IFees IIssuer IOperator} w.
Arguments getFees {IEntity IUtility IFees IIssuer IOperator} w.

(** ** Statement vocabulary *)

Section Vocabulary.

Variables IEntity IUtility IFees IIssuer IOperator : Type.
Variable LedgerId : Type.
Variable LedgerId_fromString : string -> completion LedgerId.

Local Abbreviation World := (World IEntity IUtility IFees IIssuer IOperator).
Local Abbreviation INetworkConfig := (INetworkConfig IEntity IUtility IFees).
Local Abbreviation HttpService := (HttpService IEntity IUtility IFees).

(** How an awaited HTTP outcome settles the accessor's promise. *)
Definition settle {T : Type} (r : AxiosOutcome T) : Promise T :=
  match r with
  | Response data => Resolved data
  | Failure e => Rejected e
  end.

(** The accessors of the service. *)
Inductive Accessor : Type :=
| GetEnvironment
| GetClientEnvironment
| GetIssuer
| GetOperator
| GetMirrorNode
| GetThreshold
| GetNodes
| GetUtilities
| GetFees.

(** What a caller observes of one call. *)
Inductive Observation : Type :=
| ObsEnvironment (r : completion string)
| ObsClientEnvironment (r : completion LedgerId)
| ObsIssuer (r : Promise IIssuer)
| ObsOperator (r : completion IOperator)
| ObsMirrorNode (r : completion IMirrorNode)
| ObsThreshold (r : Promise number)
| ObsNodes (r : Promise (list IEntity))
| ObsUtilities (r : Promise (list IUtility))
| ObsFees (r : Promise IFees).

(** One call of an accessor: the observation and the world after it. *)
Definition call (a : Accessor) (w : World) : Observation * World :=
  match a with
  | GetEnvironment => let (r, w') := getEnvironment w in (ObsEnvironment r, w')
  | GetClientEnvironment =>
      let (r, w') := getClientEnvironment LedgerId_fromString w in
      (ObsClientEnvironment r, w')
  | GetIssuer => let (r, w') := getIssuer w in (ObsIssuer r, w')
  | GetOperator => let (r, w') := getOperator w in (ObsOperator r, w')
  | GetMirrorNode => let (r, w') := getMirrorNode w in (ObsMirrorNode r, w')
  | GetThreshold => let (r, w') := getThreshold w in (ObsThreshold r, w')
  | GetNodes => let (r, w') := getNodes w in (ObsNodes r, w')
  | GetUtilities => let (r, w') := getUtilities w in (ObsUtilities r, w')
  | GetFees => let (r, w') := getFees w in (ObsFees r, w')
  end.

(** The three inputs of the service are the same in both worlds. *)
Definition same_inputs (w1 w2 : World) : Prop :=
  smartConfigOptions w1 = smartConfigOptions w2
  /\ configService w1 = configService w2
  /\ httpService w1 = httpService w2.


(** A resource accessor [acc], with its field [proj] of the resolved
    table, its view [view] of the HTTP client and its path [path], takes
    each value from one source only. *)
Definition one_source {T : Type} (acc : World -> Promise T * World)
    (proj : INetworkConfig -> T)
    (view : HttpService -> string -> AxiosOutcome T) (path : string)
  : Prop :=
  forall w : World,
    (* a resolved local table answers the call, and nothing is fetched *)
    (forall cfg,
        getNetworkConfig (smartConfigOptions w) = Normal (Some cfg) ->
        acc w = (Resolved (proj cfg), w))
    (* a resolved value is the table's field with no request, or the body
       of the one request issued *)
    /\ (forall v w',
           acc w = (Resolved v, w') ->
           (exists cfg,
               getNetworkConfig (smartConfigOptions w) = Normal (Some cfg)
               /\ v = proj cfg /\ requests w' = requests w)
           \/ (exists u,
                  getNetworkConfig (smartConfigOptions w) = Normal None
                  /\ smartRegistryUrl (smartConfigOptions w) = Some u
                  /\ requests w' = (requests w ++ [(u ++ path)%string])%list
                  /\ view (httpService w) (u ++ path) = Response v))
    (* a call issues no request, or one, and then no table was resolved *)
    /\ (requests (snd (acc w)) = requests w
        \/ (exists u,
               requests (snd (acc w)) = (requests w ++ [u])%list
               /\ getNetworkConfig (smartConfigOptions w) = Normal None))
    (* with a local table the answer does not depend on the remote side *)
    /\ (forall (w2 : World) cfg,
           smartConfigOptions w2 = smartConfigOptions w ->
           getNetworkConfig (smartConfigOptions w) = Normal (Some cfg) ->
           fst (acc w2) = fst (acc w))
    (* without one the answer does not depend on the tables *)
    /\ (forall w2 : World,
           getNetworkConfig (smartConfigOptions w) = Normal None ->
           getNetworkConfig (smartConfigOptions w2) = Normal None ->
           smartRegistryUrl (smartConfigOptions w2)
           = smartRegistryUrl (smartConfigOptions w) ->
           httpService w2 = httpService w ->
           fst (acc w2) = fst (acc w)).

End Vocabulary.

(** ** Sequences of calls *)

Section CallSequences.

Variables IEntity IUtility IFees IIssuer IOperator : Type.
Variable LedgerId : Type.
Variable LedgerId_fromString : string -> completion LedgerId.

Local Abbreviation World := (World IEntity IUtility IFees IIssuer IOperator).
Local Abbreviation IOptions := (IOptions IEntity IUtility IFees).
Local Abbreviation Observation :=
  (Observation IEntity IUtility IFees IIssuer IOperator LedgerId).

(** A caller issuing the calls of [l] one after the other, each on the
    world the previous one left. *)
Fixpoint run_calls (l : list Accessor) (w : World)
  : list Observation * World :=
  match l with
  | [] => ([], w)
  | a :: l' =>
      let (r, w1) := call LedgerId_fromString a w in
      let (rs, w2) := run_calls l' w1 in
      (r :: rs, w2)
  end.

(** The registry path an accessor asks for; [getThreshold] asks for the
    nodes once it has read its percentage. *)
Definition registry_path (a : Accessor) (threshold_set : bool)
  : option string :=
  match a with
  | GetNodes => Some "/network/nodes"
  | GetUtilities => Some "/network/utilities"
  | GetFees => Some "/network/fees"
  | GetThreshold => if threshold_set then Some "/network/nodes" else None
  | _ => None
  end.

(** The requests one call of [a] is expected to add to the log of [w]:
    none, or the one to the registry. *)
Definition request_of (w : World) (a : Accessor) : list string :=
  match getNetworkConfig (smartConfigOptions w),
        smartRegistryUrl (smartConfigOptions w) with
  | Normal None, Some u =>
      if String.eqb u "local" then []
      else
        match registry_path a
                (negb (isUndefined
                         (configService w key_clusterConfig_threshold))) with
        | Some path => [u ++ path]
        | None => []
        end
  | _, _ => []
  end.

(** The accessors that read one key of the store and nothing else. *)
Definition reads_store_only (a : Accessor) : bool :=
  match a with
  | GetEnvironment | GetClientEnvironment | GetIssuer | GetOperator
  | GetMirrorNode => true
  | _ => false
  end.

(** The accessors that read the options and the registry and nothing
    else. *)
Definition reads_options_only (a : Accessor) : bool :=
  match a with
  | GetNodes | GetUtilities | GetFees => true
  | _ => false
  end.

(** The options with another client environment. *)
Definition with_client_environment (c : string) (o : IOptions) : IOptions :=
  {| environment := environment o;
     network := network o;
     client_environment := c;
     customNetwork := customNetwork o;
     smartRegistryUrl := smartRegistryUrl o |}.

(** Every rejection of the resource accessor [acc] has one of three causes:
    the resolution threw, no registry URL is usable, or the one request
    issued failed. *)
Definition rejection_explained {T : Type} (acc : World -> Promise T * World)
    (view : HttpService IEntity IUtility IFees -> string -> AxiosOutcome T)
    (path : string) : Prop :=
  forall (w : World) (e : JsError) (w' : World),
    acc w = (Rejected e, w') ->
    (w' = w /\ getNetworkConfig (smartConfigOptions w) = Throw e)
    \/ (w' = w /\ e = Error "Base URL not set"
        /\ getNetworkConfig (smartConfigOptions w) = Normal None
        /\ (smartRegistryUrl (smartConfigOptions w) = None
            \/ smartRegistryUrl (smartConfigOptions w) = Some "local"))
    \/ (exists u,
           getNetworkConfig (smartConfigOptions w) = Normal None
           /\ smartRegistryUrl (smartConfigOptions w) = Some u
           /\ u <> "local"
           /\ w' = issue_get (u ++ path) w
           /\ view (httpService w) (u ++ path) = Failure e).

End CallSequences.

(** ** The logger (the LoggerUtil class, lines 357-415) *)

Module LoggerUtil.

Section Logger.

(** The arguments of a logging call are passed on as they are. *)
Variable Arg : Type.

(** The console method a line was written with. *)
Inductive ConsoleMethod : Type :=
| console_log
| console_debug
| console_warn
| console_error.

(** The static flag of the class and what was written to the console,
    oldest first. *)
Record State : Type := {
  isDebugEnabled : bool;
  console : list (ConsoleMethod * list Arg)
}.

(** The class at load time:
    [isDebugEnabled = process.env.NODE_ENV === 'testnet'] (line 363). *)
Definition initial (NODE_ENV : option string) : State :=
  {| isDebugEnabled :=
       match NODE_ENV with
       | Some v => String.eqb v "testnet"
       | None => false
       end;
     console := [] |}.

(** [console.<method>(...args)] *)
Definition write (m : ConsoleMethod) (args : list Arg) (st : State) : State :=
  {| isDebugEnabled := isDebugEnabled st;
     console := console st ++ [(m, args)] |}.

(** [log] (lines 370-374). *)
Definition log (args : list Arg) (st : State) : State :=
  if isDebugEnabled st then write console_log args st else st.

(** [debug] (lines 381-385). *)
Definition debug (args : list Arg) (st : State) : State :=
  if isDebugEnabled st then write console_debug args st else st.

(** [warn] (lines 392-396). *)
Definition warn (args : list Arg) (st : State) : State :=
  if isDebugEnabled st then write console_warn args st else st.

(** [error] (lines 403-405). *)
Definition error (args : list Arg) (st : State) : State :=
  write console_error args st.

(** [setDebugMode] (lines 412-414). *)
Definition setDebugMode (enabled : bool) (st : State) : State :=
  {| isDebugEnabled := enabled; console := console st |}.

(** A call of one of the five static methods. *)
Inductive Call : Type :=
| CallLog (args : list Arg)
| CallDebug (args : list Arg)
| CallWarn (args : list Arg)
| CallError (args : list Arg)
| CallSetDebugMode (enabled : bool).

Definition step (c : Call) (st : State) : State :=
  match c with
  | CallLog args => log args st
  | CallDebug args => debug args st
  | CallWarn args => warn args st
  | CallError args => error args st
  | CallSetDebugMode enabled => setDebugMode enabled st
  end.

(** The calls of a program, in order. *)
Definition run (calls : list Call) (st : State) : State :=
  fold_left (fun st c => step c st) calls st.

(** The line a logging call writes when it writes. *)
Definition line_of (c : Call) : list (ConsoleMethod * list Arg) :=
  match c with
  | CallLog args => [(console_log, args)]
  | CallDebug args => [(console_debug, args)]
  | CallWarn args => [(console_warn, args)]
  | CallError args => [(console_error, args)]
  | CallSetDebugMode _ => []
  end.

(** The line of an [error] call, nothing for the other calls. *)
Definition error_line_of (c : Call) : list (ConsoleMethod * list Arg) :=
  match c with
  | CallError args => [(console_error, args)]
  | _ => []
  end.

Definition is_error_line (l : ConsoleMethod * list Arg) : bool :=
  match fst l with
  | console_error => true
  | _ => false
  end.

(** The call sets the flag to [b]. *)
Definition sets_mode (b : bool) (c : Call) : bool :=
  match c with
  | CallSetDebugMode enabled => Bool.eqb enabled b
  | _ => false
  end.

(** The call sets the flag, to whatever value. *)
Definition is_set (c : Call) : bool :=
  match c with
  | CallSetDebugMode _ => true
  | _ => false
  end.

End Logger.

Arguments CallLog {Arg} args.
Arguments CallDebug {Arg} args.
Arguments CallWarn {Arg} args.
Arguments CallError {Arg} args.
Arguments CallSetDebugMode {Arg} enabled.

End LoggerUtil.

(** ** The module (src/src/smart-config.module.ts) *)

Module SmartConfigModule.

Section DynamicModule.

(** [Type<any>], the factory function, an injection token ([any]) and an
    imported module of the options: all opaque. *)
Variables ClassRef Factory Token ImportRef : Type.

(** [SmartConfigModuleAsyncOptions]
    (src/src/interfaces/smartconfig-options.interface.ts, lines 72-140);
    every field is optional. *)
Record SmartConfigModuleAsyncOptions : Type := {
  imports : option (list ImportRef);
  useExisting : option (list ClassRef);
  useClass : option ClassRef;
  useFactory : option Factory;
  inject : option (list Token)
}.

(** The classes and modules the result names. *)
Inductive Ref : Type :=
| SmartConfigModule_class
| SmartConfigService_class
| HttpModule_register_empty.

(** A provider: a class, or a factory provider with its token, its factory
    and the list of what to inject into it. *)
Inductive Provider : Type :=
| ClassProvider (c : Ref)
| FactoryProvider (provide : string) (factory : option Factory)
    (injected : option (list ClassRef)).

(** The [DynamicModule] of @nestjs/common, with the fields the function
    fills. *)
Record DynamicModule : Type := {
  module : Ref;
  module_imports : list Ref;
  controllers : list Ref;
  providers : list Provider;
  exports : list Ref;
  global : bool
}.

(** [forRootAsync] (lines 104-124). *)
Definition forRootAsync (options : SmartConfigModuleAsyncOptions)
  : Promise DynamicModule :=
  Resolved
    {| module := SmartConfigModule_class;
       module_imports := [HttpModule_register_empty];
       controllers := [];
       providers :=
         [ClassProvider SmartConfigService_class;
          FactoryProvider "smartConfigOptions" (useFactory options)
            (useExisting options)];
       exports := [SmartConfigService_class];
       global := true |}.

End DynamicModule.

Arguments ClassProvider {ClassRef Factory} c.

End SmartConfigModule.

(** ** A concrete deployment, used to exercise the statements *)

Module Sample.

(** Descriptors are names; a fee schedule is a number. *)
Definition Entity : Type := string.
Definition Utility : Type := string.
Definition Fees : Type := nat.
Definition Issuer : Type := string.
Definition Operator : Type := string.
Definition Ledger : Type := string.

(** A stand-in for [LedgerId.fromString]: the four named ledgers. *)
Definition fromString (s : string) : completion Ledger :=
  if String.eqb s "mainnet" then Normal "mainnet"
  else if String.eqb s "testnet" then Normal "testnet"
  else if String.eqb s "previewnet" then Normal "previewnet"
  else if String.eqb s "local-node" then Normal "local-node"
  else Throw (Error "Default reached for fromString").

Definition cfg_testnet : INetworkConfig Entity Utility Fees :=
  {| nodes := ["t1"; "t2"; "t3"; "t4"]; utilities := ["tu"]; fees := 1%nat |}.
Definition cfg_local : INetworkConfig Entity Utility Fees :=
  {| nodes := ["l1"]; utilities := ["lu"]; fees := 2%nat |}.
Definition cfg_mainnet : INetworkConfig Entity Utility Fees :=
  {| nodes := ["m1"; "m2"]; utilities := ["mu"]; fees := 3%nat |}.

Definition table : ICustomNetwork Entity Utility Fees :=
  {| testnet := Some cfg_testnet;
     local := Some cfg_local;
     mainnet := Some cfg_mainnet |}.

(** A table whose testnet entry is missing. *)
Definition table_no_testnet : ICustomNetwork Entity Utility Fees :=
  {| testnet := None; local := Some cfg_local; mainnet := Some cfg_mainnet |}.

Definition options (env net cenv : string)
    (cn : option (ICustomNetwork Entity Utility Fees)) (reg : option string)
  : IOptions Entity Utility Fees :=
  {| environment := env; network := net; client_environment := cenv;
     customNetwork := cn; smartRegistryUrl := reg |}.

(** A store with a threshold of [p] percent and, optionally, a mirror
    node. *)
Definition store (p : float) (m : option IMirrorNode)
  : ConfigService Issuer Operator :=
  fun T k =>
    match k in ConfigKey _ _ T return option T with
    | key_smartConfig_environment => Some "testnet"
    | key_smartConfig_client_environment => Some "testnet"
    | key_issuer => Some "issuer-1"
    | key_client_operator => None
    | key_mirrorNode => m
    | key_clusterConfig_threshold => Some p
    end.

Definition mirror : IMirrorNode :=
  {| url := Some "https://mirror.example"; apiKey := None;
     grpc := Some "mirror.example:443" |}.

Definition ten_nodes : list Entity :=
  ["n0"; "n1"; "n2"; "n3"; "n4"; "n5"; "n6"; "n7"; "n8"; "n9"].

Definition not_found : JsError :=
  mkError "AxiosError" "Request failed with status code 404".

(** A registry that knows the nodes and the fees, not the utilities. *)
Definition registry : HttpService Entity Utility Fees :=
  {| get_entities := fun u =>
       if String.eqb u "https://registry.example/network/nodes"
       then Response ten_nodes else Failure not_found;
     get_utilities := fun _ => Failure not_found;
     get_fees := fun u =>
       if String.eqb u "https://registry.example/network/fees"
       then Response 7%nat else Failure not_found |}.

(** A registry that answers every request with an empty node list. *)
Definition empty_registry : HttpService Entity Utility Fees :=
  {| get_entities := fun _ => Response [];
     get_utilities := fun _ => Response [];
     get_fees := fun _ => Response 0%nat |}.

Definition world (o : IOptions Entity Utility Fees) (p : float)
    (m : option IMirrorNode) (h : HttpService Entity Utility Fees)
    (log : list string) : World Entity Utility Fees Issuer Operator :=
  {| smartConfigOptions := o; configService := store p m;
     httpService := h; requests := log |}.

Definition registry_url : option string := Some "https://registry.example".

(** testnet / public: everything comes from the registry. *)
Definition w_public : World Entity Utility Fees Issuer Operator :=
  world (options "testnet" "public" "testnet" (Some table) registry_url)
        67 None registry [].

(** testnet / private / testnet: the testnet table. *)
Definition w_private : World Entity Utility Fees Issuer Operator :=
  world (options "testnet" "private" "testnet" (Some table) registry_url)
        100 (Some mirror) registry [].





(** A logger program: three silent-or-not calls around two errors. *)
Definition program : list (LoggerUtil.Call string) :=
  [LoggerUtil.CallLog ["starting"];
   LoggerUtil.CallError ["no registry"; "retrying"];
   LoggerUtil.CallWarn ["slow"];
   LoggerUtil.CallDebug [];
   LoggerUtil.CallError ["gave up"]].

(** Module options as in the README: a factory and an [inject] list. *)
Definition readme_options
  : SmartConfigModule.SmartConfigModuleAsyncOptions string string string string :=
  {| SmartConfigModule.imports := None;
     SmartConfigModule.useExisting := None;
     SmartConfigModule.useClass := None;
     SmartConfigModule.useFactory := Some "factory";
     SmartConfigModule.inject := Some ["ConfigService"] |}.

(** The same options without the [inject] list. *)
Definition bare_options
  : SmartConfigModule.SmartConfigModuleAsyncOptions string string string string :=
  {| SmartConfigModule.imports := None;
     SmartConfigModule.useExisting := None;
     SmartConfigModule.useClass := None;
     SmartConfigModule.useFactory := Some "factory";
     SmartConfigModule.inject := None |}.

End Sample.

(** ** Binary64 against the exact ceiling *)

(** The binary64 threshold is the exact ceiling for every node count up
    to 300 at every integer percentage up to 100. *)
Example readings_agree_on_percentages :
  forallb (fun n => forallb (readings_agree n) (seq 0 101)) (seq 0 301) = true.
Proof. vm_compute. reflexivity. Qed.

(** ** Properties *)

Section Properties.

Variables IEntity IUtility IFees IIssuer IOperator : Type.
Variable LedgerId : Type.
Variable LedgerId_fromString : string -> completion LedgerId.

Local Abbreviation World := (World IEntity IUtility IFees IIssuer IOperator).
Local Abbreviation IOptions := (IOptions IEntity IUtility IFees).
Local Abbreviation INetworkConfig := (INetworkConfig IEntity IUtility IFees).
Local Abbreviation ICustomNetwork := (ICustomNetwork IEntity IUtility IFees).

Implicit Types (w : World) (o : IOptions) (cfg : INetworkConfig)
  (table : ICustomNetwork) (u : string) (e : JsError).

(** *** The registry-URL test *)

Lemma url_usable u :
  u <> "local" ->
  negb (isUndefined (Some u)) && strict_neq (Some u) "local" = true.
Proof.
  intros Hu. simpl. apply negb_true_iff, String.eqb_neq. exact Hu.
Qed.

Lemma url_unusable (v : option string) :
  v = None \/ v = Some "local" ->
  negb (isUndefined v) && strict_neq v "local" = false.
Proof.
  intros [-> | ->]; reflexivity.
Qed.

(** *** The four ways a resource accessor ends *)

Ltac accessor_cases acc :=
  unfold acc, httpService_get; intros;
  repeat match goal with
         | H : getNetworkConfig _ = _ |- _ => rewrite H; clear H
         | H : smartRegistryUrl _ = Some _ |- _ =>
             rewrite H; rewrite url_usable by assumption; clear H
         | H : _ \/ _ |- _ => rewrite (url_unusable H); clear H
         end;
  simpl;
  try match goal with
      | |- context [match ?x with Response _ => _ | Failure _ => _ end] =>
          destruct x
      end;
  reflexivity.

Lemma getNodes_local w cfg :
  getNetworkConfig (smartConfigOptions w) = Normal (Some cfg) ->
  getNodes w = (Resolved (nodes cfg), w).
Proof. accessor_cases (@getNodes). Qed.

Lemma getNodes_throw w e :
  getNetworkConfig (smartConfigOptions w) = Throw e ->
  getNodes w = (Rejected e, w).
Proof. accessor_cases (@getNodes). Qed.

Lemma getNodes_remote w u :
  getNetworkConfig (smartConfigOptions w) = Normal None ->
  smartRegistryUrl (smartConfigOptions w) = Some u ->
  u <> "local" ->
  getNodes w
  = (settle (get_entities (httpService w) (u ++ "/network/nodes")),
     issue_get (u ++ "/network/nodes") w).
Proof. accessor_cases (@getNodes). Qed.

Lemma getNodes_no_url w :
  getNetworkConfig (smartConfigOptions w) = Normal None ->
  smartRegistryUrl (smartConfigOptions w) = None
  \/ smartRegistryUrl (smartConfigOptions w) = Some "local" ->
  getNodes w = (Rejected (Error "Base URL not set"), w).
Proof. accessor_cases (@getNodes). Qed.

Lemma getUtilities_local w cfg :
  getNetworkConfig (smartConfigOptions w) = Normal (Some cfg) ->
  getUtilities w = (Resolved (utilities cfg), w).
Proof. accessor_cases (@getUtilities). Qed.

Lemma getUtilities_throw w e :
  getNetworkConfig (smartConfigOptions w) = Throw e ->
  getUtilities w = (Rejected e, w).
Proof. accessor_cases (@getUtilities). Qed.

Lemma getUtilities_remote w u :
  getNetworkConfig (smartConfigOptions w) = Normal None ->
  smartRegistryUrl (smartConfigOptions w) = Some u ->
  u <> "local" ->
  getUtilities w
  = (settle (get_utilities (httpService w) (u ++ "/network/utilities")),
     issue_get (u ++ "/network/utilities") w).
Proof. accessor_cases (@getUtilities). Qed.

Lemma getUtilities_no_url w :
  getNetworkConfig (smartConfigOptions w) = Normal None ->
  smartRegistryUrl (smartConfigOptions w) = None
  \/ smartRegistryUrl (smartConfigOptions w) = Some "local" ->
  getUtilities w = (Rejected (Error "Base URL not set"), w).
Proof. accessor_cases (@getUtilities). Qed.

Lemma getFees_local w cfg :
  getNetworkConfig (smartConfigOptions w) = Normal (Some cfg) ->
  getFees w = (Resolved (fees cfg), w).
Proof. accessor_cases (@getFees). Qed.

Lemma getFees_throw w e :
  getNetworkConfig (smartConfigOptions w) = Throw e ->
  getFees w = (Rejected e, w).
Proof. accessor_cases (@getFees). Qed.

Lemma getFees_remote w u :
  getNetworkConfig (smartConfigOptions w) = Normal None ->
  smartRegistryUrl (smartConfigOptions w) = Some u ->
  u <> "local" ->
  getFees w
  = (settle (get_fees (httpService w) (u ++ "/network/fees")),
     issue_get (u ++ "/network/fees") w).
Proof. accessor_cases (@getFees). Qed.

Lemma getFees_no_url w :
  getNetworkConfig (smartConfigOptions w) = Normal None ->
  smartRegistryUrl (smartConfigOptions w) = None
  \/ smartRegistryUrl (smartConfigOptions w) = Some "local" ->
  getFees w = (Rejected (Error "Base URL not set"), w).
Proof. accessor_cases (@getFees). Qed.

(** A registry URL is unset, the word local, or usable. *)
Lemma url_cases (v : option string) :
  (v = None \/ v = Some "local") \/ (exists u, v = Some u /\ u <> "local").
Proof.
  destruct v as [u |]; [| now left; left].
  destruct (String.eqb_spec u "local") as [-> | Hne].
  - now left; right.
  - right. now exists u.
Qed.

(** *** The decision table *)

(** C1. [getNetworkConfig] follows the decision table: under testnet and
    public the result is absent whatever the client environment; under
    testnet, private and client environment testnet it is
    [customNetwork.testnet]; under mainnet and private it is
    [customNetwork.mainnet]; under mainnet and public it is absent. *)
Theorem getNetworkConfig_decision_table o :
  (environment o = "testnet" -> network o = "public" ->
   getNetworkConfig o = Normal None)
  /\ (environment o = "testnet" -> network o = "private" ->
      client_environment o = "testnet" ->
      getNetworkConfig o = customNetwork_get testnet "testnet" o
      /\ forall table, customNetwork o = Some table ->
                       getNetworkConfig o = Normal (testnet table))
  /\ (environment o = "mainnet" -> network o = "private" ->
      getNetworkConfig o = customNetwork_get mainnet "mainnet" o
      /\ forall table, customNetwork o = Some table ->
                       getNetworkConfig o = Normal (mainnet table))
  /\ (environment o = "mainnet" -> network o = "public" ->
      getNetworkConfig o = Normal None).
Proof.
  unfold getNetworkConfig, customNetwork_get.
  repeat split; intros;
    repeat match goal with
           | H : _ o = _ |- _ => rewrite H
           end;
    reflexivity.
Qed.

(** C2. Under testnet and private, the client environments local and
    mainnet both select [customNetwork.local]. *)
Theorem getNetworkConfig_local_collapse o :
  environment o = "testnet" -> network o = "private" ->
  client_environment o = "local" \/ client_environment o = "mainnet" ->
  getNetworkConfig o = customNetwork_get local "local" o
  /\ forall table, customNetwork o = Some table ->
                   getNetworkConfig o = Normal (local table).
Proof.
  unfold getNetworkConfig, customNetwork_get.
  intros He Hn Hc. rewrite He, Hn.
  destruct Hc as [Hc | Hc]; rewrite Hc; simpl;
    (split; [reflexivity | intros table Ht; rewrite Ht; reflexivity]).
Qed.

(** *** Remote fallback *)

(** C3. When no table is resolved and the registry URL is unset or the
    word local, [getNodes], [getUtilities] and [getFees] reject with an
    error whose message is Base URL not set, and the world, hence the
    request log, is unchanged. *)
Theorem base_url_not_set w :
  getNetworkConfig (smartConfigOptions w) = Normal None ->
  smartRegistryUrl (smartConfigOptions w) = None
  \/ smartRegistryUrl (smartConfigOptions w) = Some "local" ->
  exists e,
    message e = "Base URL not set"
    /\ getNodes w = (Rejected e, w)
    /\ getUtilities w = (Rejected e, w)
    /\ getFees w = (Rejected e, w).
Proof.
  intros Hcfg Hurl. exists (Error "Base URL not set").
  split; [reflexivity |].
  auto using getNodes_no_url, getUtilities_no_url, getFees_no_url.
Qed.

(** C4. When no table is resolved and the registry URL [u] is set and is
    not the word local, each accessor issues the single request
    [u/network/<kind>], resolves with the body of the response as it is,
    and rejects with the collaborator's error when the request fails. *)
Theorem remote_fetch w u :
  getNetworkConfig (smartConfigOptions w) = Normal None ->
  smartRegistryUrl (smartConfigOptions w) = Some u ->
  u <> "local" ->
  (requests (snd (getNodes w))
   = (requests w ++ [(u ++ "/network/nodes")%string])%list
   /\ (forall body,
          get_entities (httpService w) (u ++ "/network/nodes")
          = Response body ->
          fst (getNodes w) = Resolved body)
   /\ (forall e,
          get_entities (httpService w) (u ++ "/network/nodes") = Failure e ->
          fst (getNodes w) = Rejected e))
  /\ (requests (snd (getUtilities w))
      = (requests w ++ [(u ++ "/network/utilities")%string])%list
      /\ (forall body,
             get_utilities (httpService w) (u ++ "/network/utilities")
             = Response body ->
             fst (getUtilities w) = Resolved body)
      /\ (forall e,
             get_utilities (httpService w) (u ++ "/network/utilities")
             = Failure e ->
             fst (getUtilities w) = Rejected e))
  /\ (requests (snd (getFees w))
      = (requests w ++ [(u ++ "/network/fees")%string])%list
      /\ (forall body,
             get_fees (httpService w) (u ++ "/network/fees")
             = Response body ->
             fst (getFees w) = Resolved body)
      /\ (forall e,
             get_fees (httpService w) (u ++ "/network/fees") = Failure e ->
             fst (getFees w) = Rejected e)).
Proof.
  intros Hcfg Hurl Hne.
  rewrite (getNodes_remote _ Hcfg Hurl Hne),
    (getUtilities_remote _ Hcfg Hurl Hne), (getFees_remote _ Hcfg Hurl Hne).
  simpl.
  repeat split; try reflexivity; intros x Hx; rewrite Hx; reflexivity.
Qed.

(** *** The consensus threshold *)












(** *** The mirror node *)

(** C6. [getMirrorNode] always returns normally: the all-null record when
    the key mirrorNode is absent from the store, the stored value when it
    is present; the world is unchanged. *)
Theorem getMirrorNode_never_fails w :
  (exists m, getMirrorNode w = (Normal m, w))
  /\ (configService w key_mirrorNode = None ->
      getMirrorNode w
      = (Normal {| url := None; apiKey := None; grpc := None |}, w))
  /\ (forall m, configService w key_mirrorNode = Some m ->
                getMirrorNode w = (Normal m, w)).
Proof.
  unfold getMirrorNode, getOrThrow.
  destruct (configService w key_mirrorNode) as [m |]; simpl.
  - split; [now exists m |]. split; [discriminate |].
    now intros m' [= <-].
  - split; [eexists; reflexivity |]. split; [reflexivity | discriminate].
Qed.

(** *** One source per call *)

Lemma settle_resolved {T : Type} (r : AxiosOutcome T) (v : T) :
  settle r = Resolved v -> r = Response v.
Proof. destruct r; simpl; congruence. Qed.

(** An accessor that ends in the four ways above takes each value from
    one source. *)
Lemma one_source_of_policy {T : Type} (acc : World -> Promise T * World)
    (proj : INetworkConfig -> T)
    (view : HttpService IEntity IUtility IFees -> string -> AxiosOutcome T)
    (path : string) :
  (forall w cfg,
      getNetworkConfig (smartConfigOptions w) = Normal (Some cfg) ->
      acc w = (Resolved (proj cfg), w)) ->
  (forall w e,
      getNetworkConfig (smartConfigOptions w) = Throw e ->
      acc w = (Rejected e, w)) ->
  (forall w u,
      getNetworkConfig (smartConfigOptions w) = Normal None ->
      smartRegistryUrl (smartConfigOptions w) = Some u ->
      u <> "local" ->
      acc w = (settle (view (httpService w) (u ++ path)),
               issue_get (u ++ path) w)) ->
  (forall w,
      getNetworkConfig (smartConfigOptions w) = Normal None ->
      smartRegistryUrl (smartConfigOptions w) = None
      \/ smartRegistryUrl (smartConfigOptions w) = Some "local" ->
      acc w = (Rejected (Error "Base URL not set"), w)) ->
  one_source acc proj view path.
Proof.
  intros Hlocal Hthrow Hremote Hnone w.
  destruct (getNetworkConfig (smartConfigOptions w)) as [[cfg |] | e] eqn:Hc.
  - (* a table is resolved *)
    rewrite (Hlocal _ _ Hc). repeat split.
    + now intros cfg' [= <-].
    + intros v w' [= <- <-]. left. now exists cfg.
    + now left.
    + intros w2 cfg' Ho _. rewrite <- Ho in Hc.
      now rewrite (Hlocal _ _ Hc).
    + discriminate.
  - (* no table: the registry decides *)
    destruct (url_cases (smartRegistryUrl (smartConfigOptions w)))
      as [Hu | (u & Hu & Hne)].
    + rewrite (Hnone _ Hc Hu). repeat split; try discriminate.
      * now left.
      * intros w2 _ Hc2 Hu2 _. rewrite <- Hu2 in Hu.
        now rewrite (Hnone _ Hc2 Hu).
    + rewrite (Hremote _ _ Hc Hu Hne). repeat split; try discriminate.
      * intros v w' [= Hv <-]. right. exists u.
        repeat split; auto using settle_resolved.
      * right. now exists (u ++ path).
      * intros w2 _ Hc2 Hu2 Hh. rewrite Hu in Hu2.
        rewrite (Hremote _ _ Hc2 Hu2 Hne). simpl. now rewrite Hh.
  - (* the resolution throws *)
    rewrite (Hthrow _ _ Hc). repeat split; try discriminate. now left.
Qed.

(** C7. For [getNodes], [getUtilities] and [getFees] a returned value
    comes from exactly one source: the resolved table, with no request
    issued and whatever the registry would answer, or the body of the one
    request issued, whatever the tables hold. *)
Theorem resources_from_one_source :
  one_source (@getNodes IEntity IUtility IFees IIssuer IOperator) nodes get_entities
    "/network/nodes"
  /\ one_source (@getUtilities IEntity IUtility IFees IIssuer IOperator) utilities
       get_utilities "/network/utilities"
  /\ one_source (@getFees IEntity IUtility IFees IIssuer IOperator) fees get_fees
       "/network/fees".
Proof.
  split; [| split]; apply one_source_of_policy;
    auto using getNodes_local, getNodes_throw, getNodes_remote,
      getNodes_no_url, getUtilities_local, getUtilities_throw,
      getUtilities_remote, getUtilities_no_url, getFees_local,
      getFees_throw, getFees_remote, getFees_no_url.
Qed.

(** *** Determinism *)

(** Case analysis on an innermost scrutinee of the goal. *)
Ltac break_match :=
  match goal with
  | |- context [match ?x with _ => _ end] =>
      lazymatch x with
      | context [match _ with _ => _ end] => fail
      | _ => destruct x; simpl
      end
  end.

(** A call leaves the three inputs of the service as they were. *)
Lemma call_preserves_inputs (a : Accessor) w :
  same_inputs (snd (call LedgerId_fromString a w)) w.
Proof.
  unfold same_inputs, call, getEnvironment, getClientEnvironment, getIssuer,
    getOperator, getMirrorNode, getThreshold, getNodes, getUtilities,
    getFees, httpService_get, issue_get.
  destruct a; simpl;
    repeat break_match;
    auto.
Qed.

(** The observation depends on the three inputs only. *)
Lemma call_depends_on_inputs (a : Accessor) (w1 w2 : World) :
  same_inputs w1 w2 ->
  fst (call LedgerId_fromString a w1) = fst (call LedgerId_fromString a w2).
Proof.
  destruct w1 as [o1 c1 h1 l1], w2 as [o2 c2 h2 l2].
  unfold same_inputs. simpl. intros (-> & -> & ->).
  unfold call, getEnvironment, getClientEnvironment, getIssuer,
    getOperator, getMirrorNode, getThreshold, getNodes, getUtilities,
    getFees, httpService_get, issue_get.
  destruct a; simpl;
    repeat break_match;
    reflexivity.
Qed.

(** C8. Every accessor is deterministic in its inputs: two calls under
    the same options, store and remote answers observe the same result;
    a call leaves these inputs as they were, so repeating it observes the
    same result again. *)
Theorem accessors_deterministic (a : Accessor) (w1 w2 : World) :
  same_inputs w1 w2 ->
  fst (call LedgerId_fromString a w1) = fst (call LedgerId_fromString a w2)
  /\ same_inputs (snd (call LedgerId_fromString a w1)) w1
  /\ fst (call LedgerId_fromString a (snd (call LedgerId_fromString a w1)))
     = fst (call LedgerId_fromString a w1).
Proof.
  intros Hsame. split; [| split].
  - now apply call_depends_on_inputs.
  - apply call_preserves_inputs.
  - apply call_depends_on_inputs, call_preserves_inputs.
Qed.

(** *** Missing tables and missing entries *)

(** C9. Under a private network, in either environment, a missing
    [customNetwork] makes the resolution throw, and [getNodes],
    [getUtilities] and [getFees] reject with that error, with no request
    issued, whatever [smartRegistryUrl] holds. *)
Theorem missing_customNetwork_rejects w :
  environment (smartConfigOptions w) = "testnet"
  \/ environment (smartConfigOptions w) = "mainnet" ->
  network (smartConfigOptions w) = "private" ->
  customNetwork (smartConfigOptions w) = None ->
  exists e,
    name e = "TypeError"
    /\ getNetworkConfig (smartConfigOptions w) = Throw e
    /\ getNodes w = (Rejected e, w)
    /\ getUtilities w = (Rejected e, w)
    /\ getFees w = (Rejected e, w).
Proof.
  intros He Hn Hc.
  assert (exists e, name e = "TypeError"
                    /\ getNetworkConfig (smartConfigOptions w) = Throw e)
    as (e & Hname & Hthrow).
  { unfold getNetworkConfig, customNetwork_get. rewrite Hn, Hc.
    destruct He as [-> | ->]; simpl;
      [destruct (String.eqb (client_environment (smartConfigOptions w))
                   "testnet") |];
      eexists; (split; [| reflexivity]); reflexivity. }
  exists e.
  repeat split; auto using getNodes_throw, getUtilities_throw, getFees_throw.
Qed.

(** C10. The presence test applies to the selected entry: when the table
    exists and the entry the decision table selects is missing, the
    resolution is absent and the accessors take the remote path, or fail
    with Base URL not set. *)
Theorem absent_entry_falls_through w table :
  customNetwork (smartConfigOptions w) = Some table ->
  (environment (smartConfigOptions w) = "testnet"
   /\ network (smartConfigOptions w) = "private"
   /\ client_environment (smartConfigOptions w) = "testnet"
   /\ testnet table = None)
  \/ (environment (smartConfigOptions w) = "testnet"
      /\ network (smartConfigOptions w) = "private"
      /\ client_environment (smartConfigOptions w) <> "testnet"
      /\ local table = None)
  \/ (environment (smartConfigOptions w) = "mainnet"
      /\ network (smartConfigOptions w) = "private"
      /\ mainnet table = None) ->
  getNetworkConfig (smartConfigOptions w) = Normal None
  /\ (forall u,
         smartRegistryUrl (smartConfigOptions w) = Some u ->
         u <> "local" ->
         getNodes w
         = (settle (get_entities (httpService w) (u ++ "/network/nodes")),
            issue_get (u ++ "/network/nodes") w)
         /\ getUtilities w
            = (settle (get_utilities (httpService w)
                         (u ++ "/network/utilities")),
               issue_get (u ++ "/network/utilities") w)
         /\ getFees w
            = (settle (get_fees (httpService w) (u ++ "/network/fees")),
               issue_get (u ++ "/network/fees") w))
  /\ (smartRegistryUrl (smartConfigOptions w) = None
      \/ smartRegistryUrl (smartConfigOptions w) = Some "local" ->
      getNodes w = (Rejected (Error "Base URL not set"), w)
      /\ getUtilities w = (Rejected (Error "Base URL not set"), w)
      /\ getFees w = (Rejected (Error "Base URL not set"), w)).
Proof.
  intros Ht Hsel.
  assert (getNetworkConfig (smartConfigOptions w) = Normal None) as Hc.
  { unfold getNetworkConfig, customNetwork_get. rewrite Ht.
    destruct Hsel as [(-> & -> & -> & ->) | [(-> & -> & Hne & ->)
                                            | (-> & -> & ->)]];
      simpl; try reflexivity.
    apply String.eqb_neq in Hne. now rewrite Hne. }
  split; [exact Hc |]. split.
  - intros u Hu Hne.
    repeat split;
      auto using getNodes_remote, getUtilities_remote, getFees_remote.
  - intros Hu.
    repeat split;
      auto using getNodes_no_url, getUtilities_no_url, getFees_no_url.
Qed.

(** ** Further properties of the service *)

(** *** The resolution, case by case *)

Ltac string_cases :=
  repeat match goal with
         | |- context [String.eqb ?a ?b] =>
             destruct (String.eqb_spec a b)
         | H : context [String.eqb ?a ?b] |- _ =>
             destruct (String.eqb_spec a b)
         end.

(** X1. [getNetworkConfig] throws exactly when the network is private, the
    environment is testnet or mainnet, and [customNetwork] is undefined. *)
Theorem getNetworkConfig_throws_iff o :
  (exists e, getNetworkConfig o = Throw e)
  <-> ((environment o = "testnet" \/ environment o = "mainnet")
       /\ network o = "private" /\ customNetwork o = None).
Proof.
  unfold getNetworkConfig, customNetwork_get. split.
  - intros (e & He). revert He.
    destruct (customNetwork o) as [table |]; string_cases;
      try discriminate; intros _; auto.
  - intros (Henv & Hnet & Htable). rewrite Hnet, Htable.
    destruct Henv as [-> | ->]; simpl; string_cases; eexists; reflexivity.
Qed.

(** X2. Outside a private network, or under an environment that is neither
    testnet nor mainnet, the resolution is absent and [customNetwork] is
    not read: the result is the same whether the table is there or not. *)
Theorem getNetworkConfig_ignores_tables o :
  network o <> "private"
  \/ (environment o <> "testnet" /\ environment o <> "mainnet") ->
  getNetworkConfig o = Normal None.
Proof.
  unfold getNetworkConfig. intros [Hnet | (Ht & Hm)]; string_cases;
    try reflexivity; contradiction.
Qed.

(** X3. A resolved table is the entry of [customNetwork] the decision
    table selects, and the network is private. *)
Theorem getNetworkConfig_resolved_entry o cfg :
  getNetworkConfig o = Normal (Some cfg) ->
  network o = "private"
  /\ exists table,
      customNetwork o = Some table
      /\ ((environment o = "testnet" /\ client_environment o = "testnet"
           /\ testnet table = Some cfg)
          \/ (environment o = "testnet" /\ client_environment o <> "testnet"
              /\ local table = Some cfg)
          \/ (environment o = "mainnet" /\ mainnet table = Some cfg)).
Proof.
  unfold getNetworkConfig, customNetwork_get.
  destruct (customNetwork o) as [table |]; string_cases;
    intros [= H]; (split; [assumption |]); exists table;
    (split; [reflexivity |]); auto.
Qed.

(** X4. The client environment matters under testnet and private only,
    and there only through the test against testnet: every other value
    selects [customNetwork.local]. *)
Theorem client_environment_role o :
  (environment o = "testnet" -> network o = "private" ->
   client_environment o <> "testnet" ->
   getNetworkConfig o = customNetwork_get local "local" o)
  /\ (environment o <> "testnet" \/ network o <> "private" ->
      forall c, getNetworkConfig (with_client_environment c o)
                = getNetworkConfig o).
Proof.
  unfold getNetworkConfig, customNetwork_get, with_client_environment. split.
  - intros -> -> Hc. simpl. string_cases; [contradiction | reflexivity].
  - intros H c. simpl. destruct H; string_cases; try reflexivity; contradiction.
Qed.

(** *** The three resources together *)

(** X5. The three resource accessors always take the same branch: all three
    answer from one and the same table entry, or all three reject with the
    same error before any request, or each one asks the registry at its
    own path. *)
Theorem resources_share_one_source w :
  (exists cfg,
      getNetworkConfig (smartConfigOptions w) = Normal (Some cfg)
      /\ getNodes w = (Resolved (nodes cfg), w)
      /\ getUtilities w = (Resolved (utilities cfg), w)
      /\ getFees w = (Resolved (fees cfg), w))
  \/ (exists e,
         getNodes w = (Rejected e, w)
         /\ getUtilities w = (Rejected e, w)
         /\ getFees w = (Rejected e, w))
  \/ (exists u,
         smartRegistryUrl (smartConfigOptions w) = Some u
         /\ u <> "local"
         /\ getNodes w
            = (settle (get_entities (httpService w) (u ++ "/network/nodes")),
               issue_get (u ++ "/network/nodes") w)
         /\ getUtilities w
            = (settle (get_utilities (httpService w)
                         (u ++ "/network/utilities")),
               issue_get (u ++ "/network/utilities") w)
         /\ getFees w
            = (settle (get_fees (httpService w) (u ++ "/network/fees")),
               issue_get (u ++ "/network/fees") w)).
Proof.
  destruct (getNetworkConfig (smartConfigOptions w)) as [[cfg |] | e] eqn:Hc.
  - left. exists cfg.
    auto using getNodes_local, getUtilities_local, getFees_local.
  - destruct (url_cases (smartRegistryUrl (smartConfigOptions w)))
      as [Hu | (u & Hu & Hne)].
    + right. left. exists (Error "Base URL not set").
      auto using getNodes_no_url, getUtilities_no_url, getFees_no_url.
    + right. right. exists u.
      auto 6 using getNodes_remote, getUtilities_remote, getFees_remote.
  - right. left. exists e.
    auto using getNodes_throw, getUtilities_throw, getFees_throw.
Qed.

Lemma settle_rejected {T : Type} (r : AxiosOutcome T) e :
  settle r = Rejected e -> r = Failure e.
Proof. destruct r; simpl; congruence. Qed.

(** An accessor that ends in the four ways has its rejections explained. *)
Lemma rejection_explained_of_policy {T : Type}
    (acc : World -> Promise T * World) (proj : INetworkConfig -> T)
    (view : HttpService IEntity IUtility IFees -> string -> AxiosOutcome T)
    (path : string) :
  (forall w cfg,
      getNetworkConfig (smartConfigOptions w) = Normal (Some cfg) ->
      acc w = (Resolved (proj cfg), w)) ->
  (forall w e,
      getNetworkConfig (smartConfigOptions w) = Throw e ->
      acc w = (Rejected e, w)) ->
  (forall w u,
      getNetworkConfig (smartConfigOptions w) = Normal None ->
      smartRegistryUrl (smartConfigOptions w) = Some u ->
      u <> "local" ->
      acc w = (settle (view (httpService w) (u ++ path)),
               issue_get (u ++ path) w)) ->
  (forall w,
      getNetworkConfig (smartConfigOptions w) = Normal None ->
      smartRegistryUrl (smartConfigOptions w) = None
      \/ smartRegistryUrl (smartConfigOptions w) = Some "local" ->
      acc w = (Rejected (Error "Base URL not set"), w)) ->
  rejection_explained acc view path.
Proof.
  intros Hlocal Hthrow Hremote Hnone w e w'.
  destruct (getNetworkConfig (smartConfigOptions w)) as [[cfg |] | e0] eqn:Hc.
  - rewrite (Hlocal _ _ Hc). discriminate.
  - destruct (url_cases (smartRegistryUrl (smartConfigOptions w)))
      as [Hu | (u & Hu & Hne)].
    + rewrite (Hnone _ Hc Hu). intros [= <- <-]. right. left. auto.
    + rewrite (Hremote _ _ Hc Hu Hne). intros [= He <-]. right. right.
      exists u. auto 6 using settle_rejected.
  - rewrite (Hthrow _ _ Hc). intros [= <- <-]. left. auto.
Qed.

(** X6. A rejection of [getNodes], [getUtilities] or [getFees] has one of
    three causes: the resolution threw that error, and nothing was asked;
    no registry URL is usable, the error is Base URL not set, and nothing
    was asked; or the one request issued failed with that error. *)
Theorem resource_rejections_explained :
  rejection_explained (@getNodes IEntity IUtility IFees IIssuer IOperator)
    get_entities "/network/nodes"
  /\ rejection_explained
       (@getUtilities IEntity IUtility IFees IIssuer IOperator)
       get_utilities "/network/utilities"
  /\ rejection_explained (@getFees IEntity IUtility IFees IIssuer IOperator)
       get_fees "/network/fees".
Proof.
  split; [| split].
  - apply rejection_explained_of_policy with (proj := nodes);
      auto using getNodes_local, getNodes_throw, getNodes_remote,
        getNodes_no_url.
  - apply rejection_explained_of_policy with (proj := utilities);
      auto using getUtilities_local, getUtilities_throw, getUtilities_remote,
        getUtilities_no_url.
  - apply rejection_explained_of_policy with (proj := fees);
      auto using getFees_local, getFees_throw, getFees_remote,
        getFees_no_url.
Qed.

(** *** Sequences of calls *)

Local Abbreviation invoke := (call LedgerId_fromString).
Local Abbreviation invoke_all := (run_calls LedgerId_fromString).

(** With its percentage in the store, [getThreshold] leaves the world
    [getNodes] leaves. *)
Lemma getThreshold_world w (p : float) :
  configService w key_clusterConfig_threshold = Some p ->
  snd (getThreshold w) = snd (getNodes w).
Proof.
  intros Hp. unfold getThreshold, getOrThrow. rewrite Hp.
  destruct (getNodes w) as [[ns | e] w']; reflexivity.
Qed.

(** A resource accessor adds to the log what [request_of] says. *)
Lemma resource_request_step {T : Type} (acc : World -> Promise T * World)
    (proj : INetworkConfig -> T)
    (view : HttpService IEntity IUtility IFees -> string -> AxiosOutcome T)
    (path : string) w :
  (forall w cfg,
      getNetworkConfig (smartConfigOptions w) = Normal (Some cfg) ->
      acc w = (Resolved (proj cfg), w)) ->
  (forall w e,
      getNetworkConfig (smartConfigOptions w) = Throw e ->
      acc w = (Rejected e, w)) ->
  (forall w u,
      getNetworkConfig (smartConfigOptions w) = Normal None ->
      smartRegistryUrl (smartConfigOptions w) = Some u ->
      u <> "local" ->
      acc w = (settle (view (httpService w) (u ++ path)),
               issue_get (u ++ path) w)) ->
  (forall w,
      getNetworkConfig (smartConfigOptions w) = Normal None ->
      smartRegistryUrl (smartConfigOptions w) = None
      \/ smartRegistryUrl (smartConfigOptions w) = Some "local" ->
      acc w = (Rejected (Error "Base URL not set"), w)) ->
  requests (snd (acc w))
  = (requests w
       ++ match getNetworkConfig (smartConfigOptions w),
                smartRegistryUrl (smartConfigOptions w) with
          | Normal None, Some u =>
              if String.eqb u "local" then [] else [(u ++ path)%string]
          | _, _ => []
          end)%list.
Proof.
  intros Hlocal Hthrow Hremote Hnone.
  destruct (getNetworkConfig (smartConfigOptions w)) as [[cfg |] | e] eqn:Hc.
  - rewrite (Hlocal _ _ Hc). simpl. now rewrite app_nil_r.
  - destruct (url_cases (smartRegistryUrl (smartConfigOptions w)))
      as [Hu | (u & Hu & Hne)].
    + rewrite (Hnone _ Hc Hu). simpl.
      destruct Hu as [-> | ->]; simpl; now rewrite app_nil_r.
    + rewrite (Hremote _ _ Hc Hu Hne), Hu. simpl.
      apply String.eqb_neq in Hne. now rewrite Hne.
  - rewrite (Hthrow _ _ Hc). simpl. now rewrite app_nil_r.
Qed.

(** One call adds to the log what [request_of] says. *)
Lemma call_request_step (a : Accessor) w :
  requests (snd (invoke a w)) = (requests w ++ request_of w a)%list.
Proof.
  assert (Hnodes := @resource_request_step _ getNodes nodes get_entities
                      "/network/nodes" w (@getNodes_local) (@getNodes_throw)
                      (@getNodes_remote) (@getNodes_no_url)).
  assert (Hutilities := @resource_request_step _ getUtilities utilities
                          get_utilities "/network/utilities" w
                          (@getUtilities_local) (@getUtilities_throw)
                          (@getUtilities_remote) (@getUtilities_no_url)).
  assert (Hfees := @resource_request_step _ getFees fees get_fees
                     "/network/fees" w (@getFees_local) (@getFees_throw)
                     (@getFees_remote) (@getFees_no_url)).
  unfold request_of, call. destruct a; simpl;
    try (unfold getEnvironment, getClientEnvironment, getIssuer, getOperator,
          getMirrorNode;
         repeat break_match; simpl;
         repeat break_match; now rewrite ?app_nil_r).
  - (* getThreshold *)
    destruct (configService w key_clusterConfig_threshold) as [p |] eqn:Hp.
    + assert (Hw := getThreshold_world w Hp).
      destruct (getThreshold w) as [r w']. simpl in *. subst w'.
      rewrite Hnodes. simpl. reflexivity.
    + unfold getThreshold, getOrThrow. rewrite Hp. simpl.
      repeat break_match; now rewrite ?app_nil_r.
  - destruct (getNodes w) as [r w']. simpl in *. rewrite Hnodes.
    repeat break_match; reflexivity.
  - destruct (getUtilities w) as [r w']. simpl in *. rewrite Hutilities.
    repeat break_match; reflexivity.
  - destruct (getFees w) as [r w']. simpl in *. rewrite Hfees.
    repeat break_match; reflexivity.
Qed.

Lemma request_of_same_inputs (a : Accessor) (w1 w2 : World) :
  same_inputs w1 w2 -> request_of w1 a = request_of w2 a.
Proof.
  unfold same_inputs, request_of. intros (-> & -> & _). reflexivity.
Qed.

Lemma run_calls_cons (a : Accessor) (l : list Accessor) w :
  invoke_all (a :: l) w
  = (fst (invoke a w) :: fst (invoke_all l (snd (invoke a w))),
     snd (invoke_all l (snd (invoke a w)))).
Proof.
  simpl. destruct (invoke a w) as [r w1]. simpl.
  destruct (invoke_all l w1) as [rs w2]. reflexivity.
Qed.

(** X7. The requests a sequence of calls issues are those of its calls
    taken one by one, in order: nothing is cached, so a repeated call asks
    again; the store accessors never ask; and with a resolved table, a
    throwing resolution or no usable URL no call of any sequence asks. *)
Theorem call_sequence_requests (l : list Accessor) w :
  requests (snd (invoke_all l w))
  = (requests w ++ flat_map (request_of w) l)%list.
Proof.
  revert w. induction l as [| a l IH]; intros w.
  - simpl. now rewrite app_nil_r.
  - rewrite run_calls_cons. simpl. rewrite IH, call_request_step.
    rewrite <- app_assoc. f_equal. f_equal.
    apply flat_map_ext. intros b.
    apply request_of_same_inputs, call_preserves_inputs.
Qed.

(** X8. Calls do not interfere: in a sequence of calls of any accessors,
    every call observes what it would observe as the first call. *)
Theorem call_sequence_observations (l : list Accessor) w :
  fst (invoke_all l w) = map (fun a => fst (invoke a w)) l.
Proof.
  revert w. induction l as [| a l IH]; intros w.
  - reflexivity.
  - rewrite run_calls_cons. simpl. f_equal. rewrite IH.
    apply map_ext. intros b.
    apply call_depends_on_inputs, call_preserves_inputs.
Qed.

(** *** The threshold *)

(** X9. [getThreshold] reads its percentage first.  Without it the call
    rejects and leaves the world as it is, so nothing is asked even where
    [getNodes] would ask; with it the call leaves the world [getNodes]
    leaves, rejects with the error of [getNodes], and resolves with
    [Math.ceil] of the binary64 quotient for the list [getNodes] resolves
    with. *)
Theorem getThreshold_effects w :
  (configService w key_clusterConfig_threshold = None ->
   exists e, getThreshold w = (Rejected e, w))
  /\ (forall p : float,
         configService w key_clusterConfig_threshold = Some p ->
         snd (getThreshold w) = snd (getNodes w)
         /\ (forall e, fst (getNodes w) = Rejected e ->
                       fst (getThreshold w) = Rejected e)
         /\ (forall ns, fst (getNodes w) = Resolved ns ->
                        fst (getThreshold w)
                        = Resolved
                            (Math_ceil (quotient_double (length ns) p)))).
Proof.
  unfold getThreshold, getOrThrow. split.
  - intros ->. eexists. reflexivity.
  - intros p ->. destruct (getNodes w) as [[ns | e] w']; simpl.
    + repeat split; [discriminate | now intros ns' [= <-]].
    + repeat split; [now intros e' [= <-] | discriminate].
Qed.

(** *** The store and the registry *)

(** X13. The accessors of the store and those of the registry do not see
    each other's inputs: [getEnvironment], [getClientEnvironment],
    [getIssuer], [getOperator] and [getMirrorNode] depend on the store
    alone and leave the world as it is; [getNodes], [getUtilities] and
    [getFees] depend on the options and the registry alone.  What
    [getEnvironment] returns is therefore not tied to the environment that
    drives the resolution. *)
Theorem store_and_registry_are_separate (a : Accessor) (w1 w2 : World) :
  (reads_store_only a = true ->
   configService w1 = configService w2 ->
   fst (invoke a w1) = fst (invoke a w2) /\ snd (invoke a w1) = w1)
  /\ (reads_options_only a = true ->
      smartConfigOptions w1 = smartConfigOptions w2 ->
      httpService w1 = httpService w2 ->
      fst (invoke a w1) = fst (invoke a w2)).
Proof.
  destruct w1 as [o1 c1 h1 l1], w2 as [o2 c2 h2 l2]. simpl.
  unfold call, getEnvironment, getClientEnvironment, getIssuer,
    getOperator, getMirrorNode, getNodes, getUtilities, getFees,
    httpService_get, issue_get.
  split.
  - intros Ha ->. destruct a; try discriminate Ha; simpl;
      repeat break_match; split; reflexivity.
  - intros Ha -> ->. destruct a; try discriminate Ha; simpl;
      repeat break_match; reflexivity.
Qed.

(** X14. Which accessor fails on a missing key: [getEnvironment] and
    [getOperator] throw exactly when their key is absent, [getIssuer]
    rejects exactly when its key is absent, [getClientEnvironment] throws
    exactly when its key is absent or the parser rejects the stored string,
    [getThreshold] rejects exactly when its key is absent or [getNodes]
    rejects, and [getMirrorNode] does not throw. *)
Theorem store_accessors_failures w :
  ((exists e, fst (getEnvironment w) = Throw e)
   <-> configService w key_smartConfig_environment = None)
  /\ ((exists e, fst (getOperator w) = Throw e)
      <-> configService w key_client_operator = None)
  /\ ((exists e, fst (getIssuer w) = Rejected e)
      <-> configService w key_issuer = None)
  /\ ((exists e, fst (getClientEnvironment LedgerId_fromString w) = Throw e)
      <-> (configService w key_smartConfig_client_environment = None
           \/ exists v e,
               configService w key_smartConfig_client_environment = Some v
               /\ LedgerId_fromString v = Throw e))
  /\ ((exists e, fst (getThreshold w) = Rejected e)
      <-> (configService w key_clusterConfig_threshold = None
           \/ exists e, fst (getNodes w) = Rejected e))
  /\ (forall e, fst (getMirrorNode w) <> Throw e).
Proof.
  unfold getEnvironment, getOperator, getIssuer, getClientEnvironment,
    getThreshold, getMirrorNode, getOrThrow.
  repeat match goal with |- _ /\ _ => split end.
  - destruct (configService w key_smartConfig_environment); simpl; split;
      try discriminate; eauto.
    intros (e & He). discriminate.
  - destruct (configService w key_client_operator); simpl; split;
      try discriminate; eauto.
    intros (e & He). discriminate.
  - destruct (configService w key_issuer); simpl; split;
      try discriminate; eauto.
    intros (e & He). discriminate.
  - destruct (configService w key_smartConfig_client_environment) as [v |];
      simpl; split.
    + intros (e & He). right. exists v, e. now split.
    + intros [Habs | (v' & e & [= <-] & He)]; [discriminate | eauto].
    + auto.
    + eauto.
  - destruct (configService w key_clusterConfig_threshold) as [p |];
      simpl; [| split; eauto].
    destruct (getNodes w) as [[ns | e] w']; simpl; split.
    + intros (e & He). discriminate.
    + intros [Habs | (e & He)]; discriminate.
    + eauto.
    + eauto.
  - intros e. destruct (configService w key_mirrorNode); discriminate.
Qed.

End Properties.

(** ** Properties of the logger *)

Section LoggerProperties.

Variable Arg : Type.

Import LoggerUtil.

Local Abbreviation State := (State Arg).
Local Abbreviation Call := (Call Arg).

Implicit Types (st : State) (c : Call) (calls : list Call).

Lemma run_cons c calls st : run (c :: calls) st = run calls (step c st).
Proof. reflexivity. Qed.

(** What one call does to the console, by the flag. *)
Lemma step_console c st :
  console (step c st)
  = (console st
       ++ (if isDebugEnabled st then line_of c else error_line_of c))%list.
Proof.
  destruct c; simpl; unfold log, debug, warn, error, setDebugMode, write;
    destruct (isDebugEnabled st); simpl; now rewrite ?app_nil_r.
Qed.

(** What one call does to the flag. *)
Lemma step_mode c st :
  isDebugEnabled (step c st)
  = match c with
    | CallSetDebugMode enabled => enabled
    | _ => isDebugEnabled st
    end.
Proof.
  destruct c; simpl; unfold log, debug, warn, error, setDebugMode, write;
    try reflexivity; destruct (isDebugEnabled st) eqn:Hmode; simpl; congruence.
Qed.

Lemma filter_error_line_of c :
  filter (@is_error_line Arg) (line_of c) = error_line_of c.
Proof. destruct c; reflexivity. Qed.

Lemma filter_error_error_line_of c :
  filter (@is_error_line Arg) (error_line_of c) = error_line_of c.
Proof. destruct c; reflexivity. Qed.

(** X15. An [error] call is always written: whatever the flag is and
    however it is switched in between, the error lines of the console
    after a program are those before it followed by one line per [error]
    call, in order, with the arguments as passed. *)
Theorem logger_errors_always_written calls st :
  filter (@is_error_line Arg) (console (run calls st))
  = (filter (@is_error_line Arg) (console st)
       ++ flat_map (@error_line_of Arg) calls)%list.
Proof.
  revert st. induction calls as [| c calls IH]; intros st.
  - simpl. now rewrite app_nil_r.
  - rewrite run_cons, IH, step_console, filter_app. simpl.
    rewrite <- app_assoc. f_equal. f_equal.
    destruct (isDebugEnabled st);
      [apply filter_error_line_of | apply filter_error_error_line_of].
Qed.

(** With the flag off and no call switching it on, only the [error] calls
    write, and the flag stays off. *)
Lemma run_disabled calls st :
  isDebugEnabled st = false ->
  existsb (@sets_mode Arg true) calls = false ->
  console (run calls st)
  = (console st ++ flat_map (@error_line_of Arg) calls)%list
  /\ isDebugEnabled (run calls st) = false.
Proof.
  revert st. induction calls as [| c calls IH]; intros st Hoff Hset.
  - simpl. now rewrite app_nil_r.
  - simpl in Hset. apply orb_false_elim in Hset as (Hc & Hrest).
    rewrite run_cons.
    assert (isDebugEnabled (step c st) = false) as Hoff'.
    { rewrite step_mode. destruct c; try assumption.
      simpl in Hc. now destruct enabled. }
    destruct (IH _ Hoff' Hrest) as (Hconsole & Hmode).
    split; [| exact Hmode].
    rewrite Hconsole, step_console, Hoff. simpl. now rewrite <- app_assoc.
Qed.

(** With the flag on and no call switching it off, every logging call
    writes, and the flag stays on. *)
Lemma run_enabled calls st :
  isDebugEnabled st = true ->
  existsb (@sets_mode Arg false) calls = false ->
  console (run calls st) = (console st ++ flat_map (@line_of Arg) calls)%list
  /\ isDebugEnabled (run calls st) = true.
Proof.
  revert st. induction calls as [| c calls IH]; intros st Hon Hset.
  - simpl. now rewrite app_nil_r.
  - simpl in Hset. apply orb_false_elim in Hset as (Hc & Hrest).
    rewrite run_cons.
    assert (isDebugEnabled (step c st) = true) as Hon'.
    { rewrite step_mode. destruct c; try assumption.
      simpl in Hc. now destruct enabled. }
    destruct (IH _ Hon' Hrest) as (Hconsole & Hmode).
    split; [| exact Hmode].
    rewrite Hconsole, step_console, Hon. simpl. now rewrite <- app_assoc.
Qed.

(** X16. In a process whose NODE_ENV is not testnet (or is not set), and
    as long as no call switches the debug mode on, [log], [debug] and
    [warn] write nothing: the console holds the lines of the [error] calls
    and nothing else. *)
Theorem logger_silent_outside_testnet (NODE_ENV : option string) calls :
  NODE_ENV <> Some "testnet" ->
  existsb (@sets_mode Arg true) calls = false ->
  console (run calls (initial Arg NODE_ENV))
  = flat_map (@error_line_of Arg) calls.
Proof.
  intros Henv Hset.
  assert (isDebugEnabled (initial Arg NODE_ENV) = false) as Hoff.
  { destruct NODE_ENV as [v |]; [| reflexivity]. simpl.
    apply String.eqb_neq. congruence. }
  now destruct (run_disabled calls (initial Arg NODE_ENV) Hoff Hset) as (-> & _).
Qed.

(** X17. In a process whose NODE_ENV is testnet, and as long as no call
    switches the debug mode off, every logging call writes one line, with
    its own console method and its arguments, in the order of the
    calls. *)
Theorem logger_verbose_on_testnet calls :
  existsb (@sets_mode Arg false) calls = false ->
  console (run calls (initial Arg (Some "testnet")))
  = flat_map (@line_of Arg) calls.
Proof.
  intros Hset.
  now destruct (run_enabled calls (initial Arg (Some "testnet")) eq_refl Hset)
    as (-> & _).
Qed.

Lemma run_app calls1 calls2 st :
  run (calls1 ++ calls2) st = run calls2 (run calls1 st).
Proof. unfold run. apply fold_left_app. Qed.

Lemma run_keeps_mode calls st :
  existsb (@is_set Arg) calls = false ->
  isDebugEnabled (run calls st) = isDebugEnabled st.
Proof.
  revert st. induction calls as [| c calls IH]; intros st Hset.
  - reflexivity.
  - simpl in Hset. apply orb_false_elim in Hset as (Hc & Hrest).
    rewrite run_cons, (IH _ Hrest), step_mode.
    destruct c; try reflexivity. discriminate Hc.
Qed.

(** X18. The debug mode is the one last set: logging calls never change
    it, and after a [setDebugMode] it is the value passed, whatever came
    before. *)
Theorem logger_mode_last_write calls1 calls2 (enabled : bool) st :
  existsb (@is_set Arg) calls2 = false ->
  isDebugEnabled (run calls2 st) = isDebugEnabled st
  /\ isDebugEnabled (run (calls1 ++ CallSetDebugMode enabled :: calls2) st)
     = enabled.
Proof.
  intros Hset. split; [now apply run_keeps_mode |].
  rewrite run_app, run_cons, (run_keeps_mode _ _ Hset). apply step_mode.
Qed.

End LoggerProperties.

(** ** Properties of the module *)

Section ModuleProperties.

Variables ClassRef Factory Token ImportRef : Type.

Import SmartConfigModule.

Local Abbreviation Options :=
  (SmartConfigModuleAsyncOptions ClassRef Factory Token ImportRef).

(** X19. [forRootAsync] reads [useFactory] and [useExisting] and nothing
    else: [imports], [useClass] and [inject] have no effect on the module
    it resolves with, and the list injected into the factory of the
    smartConfigOptions provider is [useExisting], not [inject]. *)
Theorem forRootAsync_reads_two_fields (o1 o2 : Options) :
  useFactory o1 = useFactory o2 ->
  useExisting o1 = useExisting o2 ->
  forRootAsync o1 = forRootAsync o2
  /\ exists m,
      forRootAsync o1 = Resolved m
      /\ providers m
         = [ClassProvider SmartConfigService_class;
            FactoryProvider "smartConfigOptions" (useFactory o2)
              (useExisting o2)]
      /\ global m = true.
Proof.
  intros Hf He. unfold forRootAsync. rewrite Hf, He.
  split; [reflexivity |]. eexists. repeat split.
Qed.

End ModuleProperties.

(** ** The statements at the concrete deployment *)

Import Sample.

(** The threshold of the public deployment: ten nodes at 67 percent. *)
Example getThreshold_public :
  getThreshold w_public
  = (Resolved (Integer 7),
     issue_get "https://registry.example/network/nodes" w_public).
Proof. vm_compute. reflexivity. Qed.

(** X20. For up to 300 nodes and an integer percentage up to 100 the
    binary64 evaluation of line 227 gives the exact ceiling of
    [n * p / 100]: rounding does not show. *)
Theorem threshold_double_exact_on_percentages (n p : nat) :
  (n <= 300)%nat -> (p <= 100)%nat ->
  threshold_double n (PrimFloat.of_uint63 (Uint63.of_Z (Z.of_nat p)))
  = Some (threshold_exact n (inject_Z (Z.of_nat p))).
Proof.
  intros Hn Hp.
  assert (Hall := readings_agree_on_percentages).
  rewrite forallb_forall in Hall.
  assert (In n (seq 0 301)) as Hin by (apply in_seq; lia).
  specialize (Hall n Hin). rewrite forallb_forall in Hall.
  assert (In p (seq 0 101)) as Hip by (apply in_seq; lia).
  specialize (Hall p Hip). unfold readings_agree in Hall.
  destruct (threshold_double n (PrimFloat.of_uint63 (Uint63.of_Z (Z.of_nat p))))
    as [t |]; [| discriminate].
  apply Z.eqb_eq in Hall. now rewrite Hall.
Qed.

Lemma threshold_double_exact_on_percentages_witness :
  threshold_double 10 (PrimFloat.of_uint63 (Uint63.of_Z (Z.of_nat 67)))
  = Some 7%Z.
Proof.
  rewrite (@threshold_double_exact_on_percentages 10 67); [reflexivity | |];
    repeat constructor.
Defined.

(** Off the integer percentages the binary64 threshold can lie below the
    exact ceiling: three nodes at the binary64 number next above 100/3.
    The exact quotient lies just above 1, the binary64 product rounds to
    100 and the binary64 threshold is 1. *)
Example readings_differ_off_percentages :
  threshold_double 3 0x1.0aaaaaaaaaaabp+5%float = Some 1%Z
  /\ exists q : Q,
      double_value 0x1.0aaaaaaaaaaabp+5%float = Some q
      /\ threshold_exact 3 q = 2%Z.
Proof.
  split; [vm_compute; reflexivity |].
  eexists. split; vm_compute; reflexivity.
Qed.

(** No node at all: the threshold is zero. *)
Example getThreshold_no_node :
  fst (getThreshold
         (world (options "mainnet" "public" "mainnet" None registry_url)
            67 None empty_registry []))
  = Resolved (Integer 0).
Proof. vm_compute. reflexivity. Qed.

(** The threshold of the private deployment: four nodes at 100 percent. *)
Example getThreshold_private :
  getThreshold w_private = (Resolved (Integer 4), w_private).
Proof. vm_compute. reflexivity. Qed.

(** The utilities of the public deployment: the registry fails, the call
    rejects with the registry's error after one request. *)
Example getUtilities_public :
  getUtilities w_public
  = (Rejected not_found,
     issue_get "https://registry.example/network/utilities" w_public).
Proof. reflexivity. Qed.

Lemma getNetworkConfig_decision_table_witness :
  getNetworkConfig (options "testnet" "public" "local" (Some table) None)
  = Normal None
  /\ getNetworkConfig (options "testnet" "private" "testnet" (Some table) None)
     = Normal (Some cfg_testnet)
  /\ getNetworkConfig (options "mainnet" "private" "local" (Some table) None)
     = Normal (Some cfg_mainnet)
  /\ getNetworkConfig (options "mainnet" "public" "mainnet" (Some table) None)
     = Normal None.
Proof.
  split; [| split; [| split]].
  - destruct (getNetworkConfig_decision_table
                (options "testnet" "public" "local" (Some table) None))
      as (H & _).
    apply H; reflexivity.
  - destruct (getNetworkConfig_decision_table
                (options "testnet" "private" "testnet" (Some table) None))
      as (_ & H & _).
    destruct (H eq_refl eq_refl eq_refl) as (_ & Htable).
    apply (Htable table). reflexivity.
  - destruct (getNetworkConfig_decision_table
                (options "mainnet" "private" "local" (Some table) None))
      as (_ & _ & H & _).
    destruct (H eq_refl eq_refl) as (_ & Htable).
    apply (Htable table). reflexivity.
  - destruct (getNetworkConfig_decision_table
                (options "mainnet" "public" "mainnet" (Some table) None))
      as (_ & _ & _ & H).
    apply H; reflexivity.
Defined.

Lemma getNetworkConfig_local_collapse_witness :
  getNetworkConfig (options "testnet" "private" "mainnet" (Some table) None)
  = Normal (Some cfg_local).
Proof.
  destruct (getNetworkConfig_local_collapse
              (options "testnet" "private" "mainnet" (Some table) None)
              eq_refl eq_refl (or_intror eq_refl))
    as (_ & Htable).
  apply (Htable table). reflexivity.
Defined.

Lemma base_url_not_set_witness :
  exists e,
    message e = "Base URL not set"
    /\ getNodes (world (options "testnet" "public" "testnet" None (Some "local"))
                   67 None registry [])
       = (Rejected e,
          world (options "testnet" "public" "testnet" None (Some "local"))
            67 None registry [])
    /\ getUtilities
         (world (options "testnet" "public" "testnet" None (Some "local"))
            67 None registry [])
       = (Rejected e,
          world (options "testnet" "public" "testnet" None (Some "local"))
            67 None registry [])
    /\ getFees (world (options "testnet" "public" "testnet" None (Some "local"))
                  67 None registry [])
       = (Rejected e,
          world (options "testnet" "public" "testnet" None (Some "local"))
            67 None registry []).
Proof.
  apply (@base_url_not_set _ _ _ Issuer Operator
           (world (options "testnet" "public" "testnet" None (Some "local"))
              67 None registry [])).
  - reflexivity.
  - right. reflexivity.
Defined.

Lemma remote_fetch_witness :
  requests (snd (getNodes w_public))
  = ["https://registry.example/network/nodes"]
  /\ fst (getNodes w_public) = Resolved ten_nodes
  /\ requests (snd (getUtilities w_public))
     = ["https://registry.example/network/utilities"]
  /\ fst (getUtilities w_public) = Rejected not_found
  /\ fst (getFees w_public) = Resolved 7%nat.
Proof.
  destruct (@remote_fetch _ _ _ _ _ w_public "https://registry.example")
    as ((Hn1 & Hn2 & _) & (Hu1 & _ & Hu3) & (_ & Hf2 & _));
    [reflexivity | reflexivity | discriminate |].
  split; [| split; [| split; [| split]]].
  - exact Hn1.
  - apply Hn2. reflexivity.
  - exact Hu1.
  - apply Hu3. reflexivity.
  - apply Hf2. reflexivity.
Defined.



Lemma getMirrorNode_never_fails_witness :
  getMirrorNode w_public
  = (Normal {| url := None; apiKey := None; grpc := None |}, w_public)
  /\ getMirrorNode w_private = (Normal mirror, w_private).
Proof.
  split.
  - destruct (getMirrorNode_never_fails w_public) as (_ & Habsent & _).
    apply Habsent. reflexivity.
  - destruct (getMirrorNode_never_fails w_private) as (_ & _ & Hpresent).
    apply Hpresent. reflexivity.
Defined.

Lemma resources_from_one_source_witness :
  getNodes w_private = (Resolved (nodes cfg_testnet), w_private)
  /\ getFees w_private = (Resolved 1%nat, w_private)
  /\ (requests (snd (getUtilities w_public)) = requests w_public
      \/ exists u,
          requests (snd (getUtilities w_public)) = (requests w_public ++ [u])%list
          /\ getNetworkConfig (smartConfigOptions w_public) = Normal None).
Proof.
  destruct (@resources_from_one_source Entity Utility Fees Issuer Operator)
    as (Hn & Hu & Hf).
  split; [| split].
  - destruct (Hn w_private) as (Hlocal & _).
    apply (Hlocal cfg_testnet). reflexivity.
  - destruct (Hf w_private) as (Hlocal & _).
    apply (Hlocal cfg_testnet). reflexivity.
  - destruct (Hu w_public) as (_ & _ & Hcount & _). exact Hcount.
Defined.

Lemma accessors_deterministic_witness :
  fst (call fromString GetThreshold w_public)
  = fst (call fromString GetThreshold
           (world (options "testnet" "public" "testnet" (Some table) registry_url)
              67 None registry ["https://registry.example/network/fees"]))
  /\ fst (call fromString GetNodes (snd (call fromString GetNodes w_public)))
     = fst (call fromString GetNodes w_public).
Proof.
  split.
  - apply (@accessors_deterministic _ _ _ _ _ _ fromString GetThreshold w_public
             (world (options "testnet" "public" "testnet" (Some table)
                       registry_url)
                67 None registry ["https://registry.example/network/fees"])).
    repeat split.
  - apply (@accessors_deterministic _ _ _ _ _ _ fromString GetNodes w_public
             w_public).
    repeat split.
Defined.

Lemma missing_customNetwork_rejects_witness :
  exists e,
    name e = "TypeError"
    /\ getNetworkConfig
         (options "mainnet" "private" "mainnet" None registry_url) = Throw e
    /\ getNodes (world (options "mainnet" "private" "mainnet" None registry_url)
                   67 None registry [])
       = (Rejected e,
          world (options "mainnet" "private" "mainnet" None registry_url)
            67 None registry []).
Proof.
  destruct (@missing_customNetwork_rejects _ _ _ Issuer Operator
              (world (options "mainnet" "private" "mainnet" None registry_url)
                 67 None registry []))
    as (e & Hname & Hthrow & Hnodes & _);
    [right; reflexivity | reflexivity | reflexivity |].
  exists e. repeat split; assumption.
Defined.

Lemma absent_entry_falls_through_witness :
  getNetworkConfig
    (options "testnet" "private" "testnet" (Some table_no_testnet) registry_url)
  = Normal None
  /\ fst (getNodes
            (world (options "testnet" "private" "testnet"
                      (Some table_no_testnet) registry_url)
               67 None registry []))
     = Resolved ten_nodes.
Proof.
  destruct (@absent_entry_falls_through _ _ _ Issuer Operator
              (world (options "testnet" "private" "testnet"
                        (Some table_no_testnet) registry_url)
                 67 None registry [])
              table_no_testnet)
    as (Hc & Hremote & _);
    [reflexivity | left; repeat split |].
  split; [exact Hc |].
  destruct (Hremote "https://registry.example") as (Hn & _);
    [reflexivity | discriminate |].
  rewrite Hn. reflexivity.
Defined.

(** ** The further properties at the concrete deployment *)

(** Five calls on the public deployment: three of them ask for the nodes,
    one for the fees, the mirror node asks for nothing. *)
Lemma call_sequence_requests_witness :
  requests
    (snd (run_calls fromString
            [GetNodes; GetMirrorNode; GetNodes; GetThreshold; GetFees]
            w_public))
  = ["https://registry.example/network/nodes";
     "https://registry.example/network/nodes";
     "https://registry.example/network/nodes";
     "https://registry.example/network/fees"].
Proof.
  rewrite (@call_sequence_requests _ _ _ _ _ _ fromString
             [GetNodes; GetMirrorNode; GetNodes; GetThreshold; GetFees]
             w_public).
  reflexivity.
Defined.

Lemma call_sequence_observations_witness :
  fst (run_calls fromString [GetFees; GetNodes; GetFees] w_public)
  = [@ObsFees Entity Utility Fees Issuer Operator Ledger (Resolved 7%nat);
     @ObsNodes Entity Utility Fees Issuer Operator Ledger (Resolved ten_nodes);
     @ObsFees Entity Utility Fees Issuer Operator Ledger (Resolved 7%nat)].
Proof.
  rewrite (@call_sequence_observations _ _ _ _ _ _ fromString
             [GetFees; GetNodes; GetFees] w_public).
  reflexivity.
Defined.

Lemma getNetworkConfig_throws_iff_witness :
  exists e,
    getNetworkConfig (options "mainnet" "private" "local" None registry_url)
    = Throw e.
Proof.
  apply (getNetworkConfig_throws_iff
           (options "mainnet" "private" "local" None registry_url)).
  split; [right; reflexivity | split; reflexivity].
Defined.

Lemma getNetworkConfig_ignores_tables_witness :
  getNetworkConfig (options "testnet" "shared" "testnet" None None)
  = Normal None.
Proof.
  apply (getNetworkConfig_ignores_tables
           (options "testnet" "shared" "testnet" None None)).
  left. discriminate.
Defined.

Lemma getNetworkConfig_resolved_entry_witness :
  network (options "testnet" "private" "local" (Some table) None) = "private"
  /\ exists t,
      customNetwork (options "testnet" "private" "local" (Some table) None)
      = Some t
      /\ ((environment (options "testnet" "private" "local" (Some table) None)
           = "testnet"
           /\ client_environment
                (options "testnet" "private" "local" (Some table) None)
              = "testnet"
           /\ testnet t = Some cfg_local)
          \/ (environment
                (options "testnet" "private" "local" (Some table) None)
              = "testnet"
              /\ client_environment
                   (options "testnet" "private" "local" (Some table) None)
                 <> "testnet"
              /\ local t = Some cfg_local)
          \/ (environment
                (options "testnet" "private" "local" (Some table) None)
              = "mainnet"
              /\ mainnet t = Some cfg_local)).
Proof.
  apply (@getNetworkConfig_resolved_entry _ _ _
           (options "testnet" "private" "local" (Some table) None) cfg_local).
  reflexivity.
Defined.

Lemma client_environment_role_witness :
  getNetworkConfig (options "testnet" "private" "previewnet" (Some table) None)
  = Normal (Some cfg_local)
  /\ getNetworkConfig
       (with_client_environment "testnet"
          (options "mainnet" "private" "local" (Some table) None))
     = Normal (Some cfg_mainnet).
Proof.
  split.
  - destruct (client_environment_role
                (options "testnet" "private" "previewnet" (Some table) None))
      as (Hother & _).
    rewrite Hother; [reflexivity | reflexivity | reflexivity | discriminate].
  - destruct (client_environment_role
                (options "mainnet" "private" "local" (Some table) None))
      as (_ & Hsame).
    rewrite Hsame; [reflexivity | left; discriminate].
Defined.

Lemma resource_rejections_explained_witness :
  (issue_get "https://registry.example/network/utilities" w_public = w_public
   /\ getNetworkConfig (smartConfigOptions w_public) = Throw not_found)
  \/ (issue_get "https://registry.example/network/utilities" w_public
      = w_public
      /\ not_found = Error "Base URL not set"
      /\ getNetworkConfig (smartConfigOptions w_public) = Normal None
      /\ (smartRegistryUrl (smartConfigOptions w_public) = None
          \/ smartRegistryUrl (smartConfigOptions w_public) = Some "local"))
  \/ (exists u,
         getNetworkConfig (smartConfigOptions w_public) = Normal None
         /\ smartRegistryUrl (smartConfigOptions w_public) = Some u
         /\ u <> "local"
         /\ issue_get "https://registry.example/network/utilities" w_public
            = issue_get (u ++ "/network/utilities") w_public
         /\ get_utilities (httpService w_public) (u ++ "/network/utilities")
            = Failure not_found).
Proof.
  destruct (@resource_rejections_explained Entity Utility Fees Issuer Operator)
    as (_ & Hutilities & _).
  apply (Hutilities w_public not_found
           (issue_get "https://registry.example/network/utilities" w_public)).
  reflexivity.
Defined.

Lemma getThreshold_effects_witness :
  snd (getThreshold w_public) = snd (getNodes w_public)
  /\ fst (getThreshold w_public) = Resolved (Integer 7).
Proof.
  destruct (getThreshold_effects w_public) as (_ & Hset).
  destruct (Hset 67%float eq_refl) as (Hworld & _ & Hresolved).
  split; [exact Hworld |].
  rewrite (Hresolved ten_nodes eq_refl). vm_compute. reflexivity.
Defined.

Lemma store_and_registry_are_separate_witness :
  fst (call fromString GetEnvironment w_public)
  = fst (call fromString GetEnvironment
           (world (options "mainnet" "private" "mainnet" None None)
              67 None empty_registry []))
  /\ fst (call fromString GetFees w_private)
     = fst (call fromString GetFees
              (world (options "testnet" "private" "testnet" (Some table)
                        registry_url)
                 0 None registry [])).
Proof.
  split.
  - destruct (@store_and_registry_are_separate _ _ _ _ _ _ fromString
                GetEnvironment w_public
                (world (options "mainnet" "private" "mainnet" None None)
                   67 None empty_registry []))
      as (Hstore & _).
    destruct (Hstore eq_refl eq_refl) as (Hsame & _). exact Hsame.
  - destruct (@store_and_registry_are_separate _ _ _ _ _ _ fromString
                GetFees w_private
                (world (options "testnet" "private" "testnet" (Some table)
                          registry_url)
                   0 None registry []))
      as (_ & Hregistry).
    exact (Hregistry eq_refl eq_refl eq_refl).
Defined.

Lemma logger_silent_outside_testnet_witness :
  LoggerUtil.console
    (LoggerUtil.run program (LoggerUtil.initial string (Some "mainnet")))
  = [(LoggerUtil.console_error, ["no registry"; "retrying"]);
     (LoggerUtil.console_error, ["gave up"])].
Proof.
  rewrite (@logger_silent_outside_testnet string (Some "mainnet") program);
    [reflexivity | discriminate | reflexivity].
Defined.

Lemma logger_verbose_on_testnet_witness :
  LoggerUtil.console
    (LoggerUtil.run program (LoggerUtil.initial string (Some "testnet")))
  = [(LoggerUtil.console_log, ["starting"]);
     (LoggerUtil.console_error, ["no registry"; "retrying"]);
     (LoggerUtil.console_warn, ["slow"]);
     (LoggerUtil.console_debug, []);
     (LoggerUtil.console_error, ["gave up"])].
Proof.
  rewrite (@logger_verbose_on_testnet string program);
    [reflexivity | reflexivity].
Defined.

Lemma logger_mode_last_write_witness :
  LoggerUtil.isDebugEnabled
    (LoggerUtil.run
       ([LoggerUtil.CallSetDebugMode true; LoggerUtil.CallLog ["a"]]
          ++ LoggerUtil.CallSetDebugMode false :: program)
       (LoggerUtil.initial string None))
  = false.
Proof.
  apply (@logger_mode_last_write string
           [LoggerUtil.CallSetDebugMode true; LoggerUtil.CallLog ["a"]]
           program false (LoggerUtil.initial string None)).
  reflexivity.
Defined.

Lemma forRootAsync_reads_two_fields_witness :
  SmartConfigModule.forRootAsync readme_options
  = SmartConfigModule.forRootAsync bare_options.
Proof.
  apply (@forRootAsync_reads_two_fields string string string string
           readme_options bare_options);
    reflexivity.
Defined.
